(** * server.js: the reporting API over product transactions

    A shallow embedding of [server.js] (Express handlers over a Mongoose
    model) and the properties of its query-and-aggregation engine.

    - [ESDate]: the ECMAScript time-value arithmetic behind [new Date],
      [getMonth] and [setMonth].
    - [JSNumber]: [parseFloat] and the truthiness of numbers.
    - [Mongo]: the collection, its filters, and the store commands the
      handlers issue ([find], [countDocuments], [aggregate]).
    - [Server]: the five route handlers.

    A finite number is the rational it denotes, and numbers are compared
    as such.  The one place where numbers are added, the [$sum] of the
    database, is an accumulator of which no law of arithmetic is assumed,
    since sums of doubles are rounded.  A time value is an integer number
    of milliseconds since the epoch, and an invalid Date or a NaN is
    [None] / [NaN]. *)

From Stdlib Require Import ZArith QArith Lqa List String Ascii Bool Lia.
From stdpp Require Import gmap strings.
Import ListNotations.
Local Open Scope Z_scope.

(* ================================================================== *)
(** ** ECMAScript dates *)
(* ================================================================== *)

Module ESDate.

(** A Date object holds a time value: milliseconds since 1970-01-01T00:00Z,
    or NaN ("Invalid Date"), here [None]. *)
Definition TimeValue := option Z.

Definition msPerDay : Z := 86400000.

Definition Day (t : Z) : Z := t / msPerDay.
Definition TimeWithinDay (t : Z) : Z := t mod msPerDay.

Definition DaysInYear (y : Z) : Z :=
  if negb (y mod 4 =? 0) then 365
  else if negb (y mod 100 =? 0) then 366
  else if negb (y mod 400 =? 0) then 365
  else 366.

Definition DayFromYear (y : Z) : Z :=
  365 * (y - 1970) + (y - 1969) / 4 - (y - 1901) / 100 + (y - 1601) / 400.

Definition TimeFromYear (y : Z) : Z := msPerDay * DayFromYear y.

(** The largest year [y] with [DayFromYear y <= d]: an estimate from the
    mean length of a year, corrected by at most one. *)
Definition YearFromDay (d : Z) : Z :=
  let e := 1970 + (400 * d) / 146097 in
  if d <? DayFromYear e then e - 1
  else if DayFromYear (e + 1) <=? d then e + 1
  else e.

Definition YearFromTime (t : Z) : Z := YearFromDay (Day t).

Definition InLeapYear (t : Z) : Z :=
  if DaysInYear (YearFromTime t) =? 366 then 1 else 0.

Definition DayWithinYear (t : Z) : Z := Day t - DayFromYear (YearFromTime t).

Definition MonthFromTime (t : Z) : Z :=
  let d := DayWithinYear t in
  let l := InLeapYear t in
  if d <? 31 then 0
  else if d <? 59 + l then 1
  else if d <? 90 + l then 2
  else if d <? 120 + l then 3
  else if d <? 151 + l then 4
  else if d <? 181 + l then 5
  else if d <? 212 + l then 6
  else if d <? 243 + l then 7
  else if d <? 273 + l then 8
  else if d <? 304 + l then 9
  else if d <? 334 + l then 10
  else 11.

Definition DateFromTime (t : Z) : Z :=
  let d := DayWithinYear t in
  let l := InLeapYear t in
  match MonthFromTime t with
  | 0 => d + 1
  | 1 => d - 30
  | 2 => d - 58 - l
  | 3 => d - 89 - l
  | 4 => d - 119 - l
  | 5 => d - 150 - l
  | 6 => d - 180 - l
  | 7 => d - 211 - l
  | 8 => d - 242 - l
  | 9 => d - 272 - l
  | 10 => d - 303 - l
  | _ => d - 333 - l
  end.

(** Day number of the first day of month [mn] (0 = January) of year [ym]. *)
Definition DayFromYearMonth (ym mn : Z) : Z :=
  let l := if DaysInYear ym =? 366 then 1 else 0 in
  DayFromYear ym +
  match mn with
  | 0 => 0
  | 1 => 31
  | 2 => 59 + l
  | 3 => 90 + l
  | 4 => 120 + l
  | 5 => 151 + l
  | 6 => 181 + l
  | 7 => 212 + l
  | 8 => 243 + l
  | 9 => 273 + l
  | 10 => 304 + l
  | _ => 334 + l
  end.

(** MakeDay(year, month, date): months outside 0..11 carry into the year. *)
Definition MakeDay (year month date : Z) : Z :=
  let ym := year + month / 12 in
  let mn := month mod 12 in
  DayFromYearMonth ym mn + date - 1.

Definition MakeDate (day time : Z) : Z := day * msPerDay + time.

Definition TimeClip (t : Z) : TimeValue :=
  if Z.abs t <=? 8640000000000000 then Some t else None.

(** *** Parsing

    [new Date(string)] is [Date.parse].  The date-only form of the
    ECMAScript date-time string format, [YYYY-MM-DD], is read as UTC
    midnight; a string of that form with an out-of-bounds month or day is
    NaN.  What an engine makes of a string outside that form is
    implementation-defined and is left to [parse_other]. *)

Definition digit (c : ascii) : option Z :=
  let n := Z.of_N (N_of_ascii c) in
  if (48 <=? n) && (n <=? 57) then Some (n - 48) else None.

Definition dateOnly (s : string) : option (Z * Z * Z) :=
  match list_ascii_of_string s with
  | [y1; y2; y3; y4; sep1; m1; m2; sep2; d1; d2] =>
      if Ascii.eqb sep1 "-" && Ascii.eqb sep2 "-" then
        match digit y1, digit y2, digit y3, digit y4,
              digit m1, digit m2, digit d1, digit d2 with
        | Some a, Some b, Some c, Some d, Some e, Some f, Some g, Some h =>
            Some (1000 * a + 100 * b + 10 * c + d, 10 * e + f, 10 * g + h)
        | _, _, _, _, _, _, _, _ => None
        end
      else None
  | _ => None
  end.

Section Host.

(** The host environment: the offset of local time from UTC in
    milliseconds (a fixed-offset zone; daylight saving is not modelled),
    and the engine's treatment of strings outside the date-only form. *)
Variable LocalTZA : Z.
Variable parse_other : string -> TimeValue.

Definition LocalTime (t : Z) : Z := t + LocalTZA.
Definition UTC (t : Z) : Z := t - LocalTZA.

Definition parse (s : string) : TimeValue :=
  match dateOnly s with
  | Some (y, m, d) =>
      if (1 <=? m) && (m <=? 12) && (1 <=? d) && (d <=? 31)
      then TimeClip (MakeDate (MakeDay y (m - 1) d) 0)
      else None
  | None => parse_other s
  end.

(** [date.getMonth()]: the month of the local time, NaN on an invalid
    date. *)
Definition getMonth (tv : TimeValue) : option Z :=
  match tv with
  | Some t => Some (MonthFromTime (LocalTime t))
  | None => None
  end.

(** [date.setMonth(month)]: the new time value of the date. *)
Definition setMonth (tv : TimeValue) (month : option Z) : TimeValue :=
  match tv with
  | None => None
  | Some t0 =>
      let t := LocalTime t0 in
      match month with
      | None => None
      | Some m =>
          let newDate :=
            MakeDate (MakeDay (YearFromTime t) m (DateFromTime t))
                     (TimeWithinDay t) in
          TimeClip (UTC newDate)
      end
  end.

End Host.

(** The civil calendar, independently of the ECMAScript formulas: the
    number of days from 1970-01-01 to the given proleptic Gregorian date
    (month 1..12), by counting whole 400-year eras and a March-based
    year. *)
Definition days_from_civil (y m d : Z) : Z :=
  let y' := if m <=? 2 then y - 1 else y in
  let era := y' / 400 in
  let yoe := y' - era * 400 in
  let mp := if m <=? 2 then m + 9 else m - 3 in
  let doy := (153 * mp + 2) / 5 + d - 1 in
  let doe := yoe * 365 + yoe / 4 - yoe / 100 + doy in
  era * 146097 + doe - 719468.

(** Leap days up to and including year [z], counted from year 0. *)
Definition leapDays (z : Z) : Z := z / 4 - z / 100 + z / 400.

(** First instant (UTC) of month [m] (1..12) of year [y]. *)
Definition firstInstant (y m : Z) : Z := msPerDay * days_from_civil y m 1.

(** The month after [(y, m)]. *)
Definition nextMonth (y m : Z) : Z * Z :=
  if m =? 12 then (y + 1, 1) else (y, m + 1).

(** The well-formed month selectors: the text [YYYY-MM] of a year 0..9999
    and a month 1..12. *)
Definition digitChar (n : Z) : ascii := ascii_of_N (Z.to_N (48 + n)).

Definition yearMonth (y m : Z) : string :=
  String (digitChar (y / 1000))
 (String (digitChar (y / 100 mod 10))
 (String (digitChar (y / 10 mod 10))
 (String (digitChar (y mod 10))
 (String "-"
 (String (digitChar (m / 10))
 (String (digitChar (m mod 10)) EmptyString)))))).

End ESDate.


(* ================================================================== *)
(** ** JavaScript numbers *)
(* ================================================================== *)

Module JSNumber.

(** A Number is a finite value (the rational it denotes), an infinity or
    NaN. *)
Inductive Number : Type :=
| Fin (q : Q)
| PosInf
| NegInf
| NaN.

(** ToBoolean on a Number: zero and NaN are falsy. *)
Definition truthy (n : Number) : bool :=
  match n with
  | Fin q => negb (Qeq_bool q 0)
  | PosInf | NegInf => true
  | NaN => false
  end.

(** [a || b] *)
Definition or_else (a b : Number) : Number := if truthy a then a else b.

(** Comparison of a finite value with a Number, as [$gte], [$lt] and
    equality do it: nothing compares with NaN. *)
Definition geb (p : Q) (n : Number) : bool :=
  match n with
  | Fin q => Qle_bool q p
  | NegInf => true
  | PosInf | NaN => false
  end.

Definition ltb (p : Q) (n : Number) : bool :=
  match n with
  | Fin q => negb (Qle_bool q p)
  | PosInf => true
  | NegInf | NaN => false
  end.

Definition eqb (p : Q) (n : Number) : bool :=
  match n with
  | Fin q => Qeq_bool p q
  | _ => false
  end.

(** *** parseFloat

    Leading white space is skipped, then the longest prefix that is a
    StrDecimalLiteral is read: an optional sign, then [Infinity] or
    decimal digits with an optional fraction and an optional exponent.
    Without such a prefix the result is NaN.  (Of the white space
    characters only the ASCII ones are recognised here.) *)

Definition isWhiteSpace (c : ascii) : bool :=
  let n := N_of_ascii c in
  ((9 <=? n) && (n <=? 13) || (n =? 32))%N.

Fixpoint trimStart (l : list ascii) : list ascii :=
  match l with
  | c :: l' => if isWhiteSpace c then trimStart l' else l
  | [] => []
  end.

Fixpoint takeDigits (l : list ascii) : list Z * list ascii :=
  match l with
  | c :: l' =>
      match ESDate.digit c with
      | Some d => let (ds, rest) := takeDigits l' in (d :: ds, rest)
      | None => ([], l)
      end
  | [] => ([], [])
  end.

Definition digitsValue (ds : list Z) : Z :=
  fold_left (fun acc d => 10 * acc + d) ds 0.

Fixpoint startsWith (p l : list ascii) : bool :=
  match p, l with
  | [], _ => true
  | a :: p', b :: l' => Ascii.eqb a b && startsWith p' l'
  | _ :: _, [] => false
  end.

(** ExponentPart, when one is present at the head of [l]. *)
Definition exponentPart (l : list ascii) : Z :=
  match l with
  | c :: l' =>
      if Ascii.eqb c "e" || Ascii.eqb c "E" then
        let (neg, l'') :=
          match l' with
          | s :: r => if Ascii.eqb s "-" then (true, r)
                      else if Ascii.eqb s "+" then (false, r)
                      else (false, l')
          | [] => (false, l')
          end in
        match fst (takeDigits l'') with
        | [] => 0
        | ds => if neg then - digitsValue ds else digitsValue ds
        end
      else 0
  | [] => 0
  end.

(** [m * 10^k] as a rational. *)
Definition scale10 (m k : Z) : Q :=
  if 0 <=? k then Qred ((m * 10 ^ k) # 1)
  else Qred (m # Z.to_pos (10 ^ (- k))).

Definition StrUnsignedDecimalLiteral (l : list ascii) : option Q :=
  let (ints, rest) := takeDigits l in
  let (fracs, rest') :=
    match rest with
    | c :: r => if Ascii.eqb c "." then takeDigits r else ([], rest)
    | [] => ([], rest)
    end in
  match ints, fracs with
  | [], [] => None
  | _, _ =>
      Some (scale10 (digitsValue (ints ++ fracs))
                    (exponentPart rest' - Z.of_nat (length fracs)))
  end.

Definition parseFloat (s : string) : Number :=
  let l := trimStart (list_ascii_of_string s) in
  let (neg, l') :=
    match l with
    | c :: r => if Ascii.eqb c "-" then (true, r)
                else if Ascii.eqb c "+" then (false, r)
                else (false, l)
    | [] => (false, l)
    end in
  if startsWith (list_ascii_of_string "Infinity") l'
  then (if neg then NegInf else PosInf)
  else
    match StrUnsignedDecimalLiteral l' with
    | Some q => Fin (if neg then Qopp q else q)
    | None => NaN
    end.

End JSNumber.

(* ================================================================== *)
(** ** The store: Mongoose over MongoDB *)
(* ================================================================== *)

Module Mongo.
Import ESDate JSNumber.

(** [productTransactionSchema] *)
Record ProductTransaction : Type := {
  id : Z;
  title : string;
  description : string;
  price : Q;
  dateOfSale : Z;
  category : string;
  sold : bool
}.

(** The database: the documents of the collection in their natural order,
    and the fate of the commands to come.  [faults] is a schedule: the
    k-th command sent from now on is rejected (the promise the handler
    awaits rejects, whatever the driver tried in between) exactly when its
    k-th entry is [true]; past the end of the schedule every command
    succeeds. *)
Record Store : Type := {
  collection : list ProductTransaction;
  faults : list bool
}.

(** No command is scheduled to fail. *)
Definition healthy (s : Store) : Prop := faults s = [].

Inductive Error : Type :=
| CastError      (* Mongoose could not cast a filter value to the schema *)
| MongoError.    (* the server refused the command, or could not be reached *)

Inductive Settled (A : Type) : Type :=
| Fulfilled (a : A)
| Rejected (e : Error).
Arguments Fulfilled {A} a.
Arguments Rejected {A} e.

(** An awaited computation: it settles, and leaves the store behind. *)
Definition Async (A : Type) : Type := Store -> Settled A * Store.

#[export] Instance Async_ret : MRet Async :=
  fun A a s => (Fulfilled a, s).

#[export] Instance Async_bind : MBind Async :=
  fun A B k c s =>
    match c s with
    | (Fulfilled a, s') => k a s'
    | (Rejected e, s') => (Rejected e, s')
    end.

Definition reject {A} (e : Error) : Async A := fun s => (Rejected e, s).

(** One command sent to the server. *)
Definition command {A} (run : list ProductTransaction -> Settled A) : Async A :=
  fun s =>
    match faults s with
    | true :: rest =>
        (Rejected MongoError, {| collection := collection s; faults := rest |})
    | false :: rest =>
        (run (collection s), {| collection := collection s; faults := rest |})
    | [] => (run (collection s), s)
    end.

(** [Promise.all]: every computation is started, in order; the result is
    the list of results, or the first rejection. *)
Fixpoint Promise_all {A} (cs : list (Async A)) : Async (list A) :=
  match cs with
  | [] => mret []
  | c :: cs' =>
      fun s =>
        let (r, s1) := c s in
        let (rs, s2) := Promise_all cs' s1 in
        (match r, rs with
         | Fulfilled a, Fulfilled l => Fulfilled (a :: l)
         | Rejected e, _ => Rejected e
         | Fulfilled _, Rejected e => Rejected e
         end, s2)
  end.

(** The [$sum] accumulator of the server.  It is fed the values of a group
    one after the other and gives their total at the end.  The values and
    the total are doubles, and a sum of doubles is rounded: the total is
    what the server's additions make of the values in the order they come,
    not the sum of the rationals they denote.  Nothing is assumed of the
    accumulator but that the total of no value at all is 0; totals are
    taken to stay finite. *)
Record Summation : Type := {
  sum_state : Type;
  sum_init : sum_state;
  sum_add : sum_state -> Q -> sum_state;
  sum_total : sum_state -> Q;
  sum_nothing : sum_total sum_init = 0%Q
}.

(** The total the accumulator gives for the values of [l], fed in order. *)
Definition summed (sm : Summation) (l : list Q) : Q :=
  sum_total sm (fold_left (sum_add sm) l (sum_init sm)).

(** An accumulator whose additions are exact, as those of doubles are on
    whole numbers of moderate size. *)
Definition exact_sum : Summation :=
  {| sum_state := Q;
     sum_init := 0%Q;
     sum_add := Qplus;
     sum_total := fun total => total;
     sum_nothing := eq_refl |}.

Section Filters.

(** The regular-expression engine: compiled expressions and their
    (unanchored) test against a string. *)
Variable regex : Type.
Variable regex_test : regex -> string -> bool.

(** The conditions the handlers put on a field. *)
Inductive Field : Type :=
| dateOfSale_range (gte lt : TimeValue)   (* dateOfSale: { $gte, $lt } *)
| title_regex (r : regex)                 (* title: regex *)
| description_regex (r : regex)           (* description: regex *)
| price_eq (n : Number)                   (* price: n *)
| price_range (gte lt : Number)           (* price: { $gte, $lt } *)
| sold_eq (b : bool).                     (* sold: b *)

(** A filter document: its entries hold jointly. *)
Inductive Entry : Type :=
| field (f : Field)
| or_ (fs : list Field).                  (* $or: [ ... ] *)

Definition Filter : Type := list Entry.

(** Mongoose casts the values of a query filter to the schema before the
    command is sent; a Date that is invalid cannot be cast. *)
Definition castField (f : Field) : bool :=
  match f with
  | dateOfSale_range (Some _) (Some _) => true
  | dateOfSale_range _ _ => false
  | _ => true
  end.

Definition castEntry (e : Entry) : bool :=
  match e with
  | field f => castField f
  | or_ fs => forallb castField fs
  end.

Definition cast (flt : Filter) : bool := forallb castEntry flt.

(** On the wire a Date is its time value, and the time value of an invalid
    Date is written as 0. *)
Definition bsonDate (d : TimeValue) : Z :=
  match d with
  | Some t => t
  | None => 0
  end.

Definition matchField (f : Field) (t : ProductTransaction) : bool :=
  match f with
  | dateOfSale_range gte lt =>
      (bsonDate gte <=? dateOfSale t) && (dateOfSale t <? bsonDate lt)
  | title_regex r => regex_test r (title t)
  | description_regex r => regex_test r (description t)
  | price_eq n => JSNumber.eqb (price t) n
  | price_range gte lt => JSNumber.geb (price t) gte && JSNumber.ltb (price t) lt
  | sold_eq b => Bool.eqb (sold t) b
  end.

Definition matchEntry (e : Entry) (t : ProductTransaction) : bool :=
  match e with
  | field f => matchField f t
  | or_ fs => existsb (fun f => matchField f t) fs
  end.

Definition matches (flt : Filter) (t : ProductTransaction) : bool :=
  forallb (fun e => matchEntry e t) flt.

(** [.limit(n)]: 0 is no limit, and a negative limit counts as its
    absolute value. *)
Definition applyLimit {A} (n : Z) (l : list A) : list A :=
  if n =? 0 then l else firstn (Z.to_nat (Z.abs n)) l.

(** [Model.find(filter).skip(skip).limit(limit)]: the server refuses a
    negative skip. *)
Definition find (flt : Filter) (skip limit : Z) : Async (list ProductTransaction) :=
  if cast flt then
    command (fun docs =>
      if skip <? 0 then Rejected MongoError
      else Fulfilled (applyLimit limit
                        (skipn (Z.to_nat skip) (List.filter (matches flt) docs))))
  else reject CastError.

(** [Model.countDocuments(filter)] *)
Definition countDocuments (flt : Filter) : Async nat :=
  if cast flt then
    command (fun docs => Fulfilled (length (List.filter (matches flt) docs)))
  else reject CastError.

(** [{ $sum: "$price" }] over the documents of a group, in the order the
    server meets them. *)
Definition sumPrice (sm : Summation) (l : list ProductTransaction) : Q :=
  summed sm (List.map price l).

(** [Model.aggregate([{ $match: flt },
                      { $group: { _id: null, total: { $sum: "$price" } } }])]:
    one group when some document matches, none otherwise.  The stages of
    an aggregation are sent as they are, without casting. *)
Definition aggregate_sum_price (sm : Summation) (flt : Filter)
  : Async (list Q) :=
  command (fun docs =>
    match List.filter (matches flt) docs with
    | [] => Fulfilled []
    | l => Fulfilled [sumPrice sm l]
    end).

(** [$group: { _id: "$category", count: { $sum: 1 } }] *)
Definition groupCount (l : list ProductTransaction) : gmap string nat :=
  fold_left (fun m t => <[category t := S (default 0%nat (m !! category t))]> m)
            l ∅.

(** [Model.aggregate([{ $match: flt },
                      { $group: { _id: "$category", count: { $sum: 1 } } },
                      { $project: { _id: 0, category: "$_id", count: 1 } }])] *)
Definition aggregate_count_by_category (flt : Filter) : Async (list (string * nat)) :=
  command (fun docs =>
    Fulfilled (map_to_list (groupCount (List.filter (matches flt) docs)))).

End Filters.

Arguments dateOfSale_range {regex} gte lt.
Arguments title_regex {regex} r.
Arguments description_regex {regex} r.
Arguments price_eq {regex} n.
Arguments price_range {regex} gte lt.
Arguments sold_eq {regex} b.
Arguments field {regex} f.
Arguments or_ {regex} fs.
Arguments castField {regex} f.
Arguments castEntry {regex} e.
Arguments cast {regex} flt.
Arguments matchField {regex} regex_test f t.
Arguments matchEntry {regex} regex_test e t.
Arguments matches {regex} regex_test flt t.
Arguments find {regex} regex_test flt skip limit.
Arguments countDocuments {regex} regex_test flt.
Arguments aggregate_sum_price {regex} regex_test sm flt.
Arguments aggregate_count_by_category {regex} regex_test flt.

End Mongo.

(* ================================================================== *)
(** ** The route handlers *)
(* ================================================================== *)

Module Server.
Import ESDate JSNumber Mongo.

(** [req.query].  [month] is the text of the parameter; an absent [search],
    [page] or [perPage] is [None] and takes the default of the
    destructuring.  [page] and [perPage] stand for the integers their
    decimal text denotes. *)
Record Query : Type := {
  month : string;
  search : option string;
  page : option Z;
  perPage : option Z
}.

(** What the client gets back: [res.status(200).json(body)],
    [res.status(500).send(msg)], or nothing at all when the handler threw
    outside its [try] block. *)
Inductive Response (A : Type) : Type :=
| Json200 (body : A)
| Text500 (msg : string)
| NoResponse.
Arguments Json200 {A} body.
Arguments Text500 {A} msg.
Arguments NoResponse {A}.

Definition Handler (A : Type) : Type := Store -> Response A * Store.

(** [try { body <- c; res.status(200).json(body) }
     catch (error) { res.status(500).send(msg) }] *)
Definition try_catch {A} (c : Async A) (msg : string) : Handler A :=
  fun s =>
    match c s with
    | (Fulfilled body, s') => (Json200 body, s')
    | (Rejected _, s') => (Text500 msg, s')
    end.

Record Statistics : Type := {
  totalSaleAmount : Q;
  totalSoldItems : nat;
  totalNotSoldItems : nat
}.

Record PriceRange : Type := {
  range : string;
  min : Number;
  max : Number
}.

Record Bar : Type := {
  bar_range : string;
  bar_count : nat
}.

Record Slice : Type := {
  slice_category : string;
  slice_count : nat
}.

Record Combined : Type := {
  transactions : list ProductTransaction * nat;
  statistics : Statistics;
  barChart : list Bar;
  pieChart : list Slice
}.

Definition priceRanges : list PriceRange :=
  [ {| range := "0-100";     min := Fin 0;   max := Fin 100 |};
    {| range := "101-200";   min := Fin 101; max := Fin 200 |};
    {| range := "201-300";   min := Fin 201; max := Fin 300 |};
    {| range := "301-400";   min := Fin 301; max := Fin 400 |};
    {| range := "401-500";   min := Fin 401; max := Fin 500 |};
    {| range := "501-600";   min := Fin 501; max := Fin 600 |};
    {| range := "601-700";   min := Fin 601; max := Fin 700 |};
    {| range := "701-800";   min := Fin 701; max := Fin 800 |};
    {| range := "801-900";   min := Fin 801; max := Fin 900 |};
    {| range := "901-above"; min := Fin 901; max := PosInf |} ].

(** What the server runs on: the time zone and date parser of the engine
    (see [ESDate]), its regular expressions, and the arithmetic of the
    database behind it.  [RegExp pattern] is [new RegExp(pattern, 'i')],
    [None] when the pattern is not a regular expression and the
    constructor throws; [regex_test] is the unanchored test of a compiled
    expression against a string; [store_sum] is the [$sum] accumulator of
    the database. *)
Record Host : Type := {
  LocalTZA : Z;
  parse_other : string -> TimeValue;
  regex : Type;
  RegExp : string -> option regex;
  regex_test : regex -> string -> bool;
  store_sum : Summation
}.

Section Handlers.

Variable host : Host.

(** The first three statements after the destructuring, the same in the
    four query handlers:
    [startDate = new Date(`${month}-01`); endDate = new Date(startDate);
     endDate.setMonth(endDate.getMonth() + 1)]. *)
Definition monthWindow (month : string) : TimeValue * TimeValue :=
  let startDate := parse (parse_other host) (month ++ "-01") in
  let endDate := startDate in
  let endDate :=
    setMonth (LocalTZA host) endDate
             (option_map (fun m => m + 1) (getMonth (LocalTZA host) endDate)) in
  (startDate, endDate).

(** The filter of [/api/transactions], built twice in the source with the
    same text. *)
Definition transactionsFilter (startDate endDate : TimeValue)
    (r : regex host) (search : string) : Filter (regex host) :=
  [ field (dateOfSale_range startDate endDate);
    or_ [ title_regex r;
          description_regex r;
          price_eq (or_else (parseFloat search) (Fin (-1))) ] ].

(** [app.get('/api/transactions', ...)] *)
Definition api_transactions (q : Query)
  : Handler (list ProductTransaction * nat) :=
  fun s =>
    let search := default ""%string (search q) in
    let page := default 1 (page q) in
    let perPage := default 10 (perPage q) in
    match RegExp host search with
    | None => (NoResponse, s)
    | Some r =>
        let (startDate, endDate) := monthWindow (month q) in
        try_catch
          (transactions ← find (regex_test host)
                             (transactionsFilter startDate endDate r search)
                             ((page - 1) * perPage) perPage;
           total ← countDocuments (regex_test host)
                     (transactionsFilter startDate endDate r search);
           mret (transactions, total))
          "Error fetching transactions" s
    end.

(** [app.get('/api/statistics', ...)].  In
    [totalSaleAmount[0]?.total || 0] a missing group and a total of zero
    both give 0. *)
Definition api_statistics (q : Query) : Handler Statistics :=
  let (startDate, endDate) := monthWindow (month q) in
  try_catch
    (totalSaleAmount ← aggregate_sum_price (regex_test host) (store_sum host)
                         [ field (dateOfSale_range startDate endDate);
                           field (sold_eq true) ];
     totalSoldItems ← countDocuments (regex_test host)
                        [ field (dateOfSale_range startDate endDate);
                          field (sold_eq true) ];
     totalNotSoldItems ← countDocuments (regex_test host)
                           [ field (dateOfSale_range startDate endDate);
                             field (sold_eq false) ];
     mret {| totalSaleAmount :=
               match totalSaleAmount with
               | total :: _ => if Qeq_bool total 0 then 0%Q else total
               | [] => 0%Q
               end;
             totalSoldItems := totalSoldItems;
             totalNotSoldItems := totalNotSoldItems |})
    "Error fetching statistics".

(** [app.get('/api/bar-chart', ...)] *)
Definition api_bar_chart (q : Query) : Handler (list Bar) :=
  let (startDate, endDate) := monthWindow (month q) in
  try_catch
    (Promise_all
       (List.map
          (fun range0 =>
             count ← countDocuments (regex_test host)
                       [ field (dateOfSale_range startDate endDate);
                         field (price_range (min range0) (max range0)) ];
             mret {| bar_range := range range0; bar_count := count |})
          priceRanges))
    "Error fetching bar chart data".

(** [app.get('/api/pie-chart', ...)] *)
Definition api_pie_chart (q : Query) : Handler (list Slice) :=
  let (startDate, endDate) := monthWindow (month q) in
  try_catch
    (pieChartData ← aggregate_count_by_category (regex_test host)
                      [ field (dateOfSale_range startDate endDate) ];
     mret (List.map (fun kv => {| slice_category := fst kv;
                                  slice_count := snd kv |})
                    pieChartData))
    "Error fetching pie chart data".

(** [await axios.get(url, { params: { month } })] inside the [try] of
    [/api/combined-data], followed by the rest of the block: the request
    is served by this same server; axios resolves with the body of a 200
    response and rejects on status 500, which the [catch] turns into the
    handler's own error.  A request that is never answered never settles. *)
Definition axios_get_then {A B} (h : Handler A) (k : A -> Handler B)
  : Handler B :=
  fun s =>
    match h s with
    | (Json200 data, s') => k data s'
    | (Text500 _, s') => (Text500 "Error fetching combined data"%string, s')
    | (NoResponse, s') => (NoResponse, s')
    end.

(** [app.get('/api/combined-data', ...)] *)
Definition api_combined_data (q : Query) : Handler Combined :=
  let params := {| month := month q; search := None;
                   page := None; perPage := None |} in
  axios_get_then (api_transactions params) (fun transactionsResponse =>
  axios_get_then (api_statistics params) (fun statisticsResponse =>
  axios_get_then (api_bar_chart params) (fun barChartResponse =>
  axios_get_then (api_pie_chart params) (fun pieChartResponse =>
  fun s =>
    (Json200 {| transactions := transactionsResponse;
                statistics := statisticsResponse;
                barChart := barChartResponse;
                pieChart := pieChartResponse |}, s))))).

End Handlers.

(** *** Vocabulary of the properties *)

(** [dateOfSale] lies in the window [[a, b)]. *)
Definition inWindow (a b : Z) (t : ProductTransaction) : bool :=
  (a <=? dateOfSale t) && (dateOfSale t <? b).

(** The same request for another page. *)
Definition with_page (q : Query) (k : Z) : Query :=
  {| month := month q; search := search q;
     page := Some k; perPage := perPage q |}.

(** The transactions a response carries. *)
Definition pageOf (r : Response (list ProductTransaction * nat))
  : list ProductTransaction :=
  match r with
  | Json200 body => fst body
  | _ => []
  end.

(** The number of pages of [n] that hold [total] records. *)
Definition pageCount (total : nat) (n : Z) : nat :=
  Z.to_nat ((Z.of_nat total + n - 1) / n).

(** The bars a response carries. *)
Definition barsOf (r : Response (list Bar)) : list Bar :=
  match r with
  | Json200 body => body
  | _ => []
  end.

(** A price lies in a bucket of the histogram. *)
Definition inRange (r : PriceRange) (p : Q) : bool :=
  JSNumber.geb p (min r) && JSNumber.ltb p (max r).

(** The prices between the buckets: from each multiple of 100 (100 to 900)
    up to, but not including, the next integer; and the negative prices. *)
Definition boundaryGap (p : Q) : bool :=
  negb (Qle_bool 0 p)
  || existsb (fun k => Qle_bool (100 * k) p && negb (Qle_bool (100 * k + 1) p))
             [1; 2; 3; 4; 5; 6; 7; 8; 9]%Q.

(** One pass over the collection that accumulates the three statistics of
    the window [[a, b)] together: the amount in the accumulator [sm], fed
    with the prices of the sold records as the pass meets them, and the
    two counts. *)
Definition scan_step (sm : Summation) (a b : Z)
    (acc : sum_state sm * nat * nat) (t : ProductTransaction)
  : sum_state sm * nat * nat :=
  let '(amount, nSold, nNotSold) := acc in
  if inWindow a b t then
    if sold t then (sum_add sm amount (price t), S nSold, nNotSold)
    else (amount, nSold, S nNotSold)
  else acc.

Definition scan (sm : Summation) (a b : Z) (docs : list ProductTransaction)
  : Q * nat * nat :=
  let '(amount, nSold, nNotSold) :=
    fold_left (scan_step sm a b) docs (sum_init sm, 0%nat, 0%nat) in
  (sum_total sm amount, nSold, nNotSold).

(** The number of records of the window [[a, b)] that bear category [c]. *)
Definition countCategory (a b : Z) (c : string)
    (docs : list ProductTransaction) : nat :=
  length (List.filter (fun t => inWindow a b t && String.eqb (category t) c)
                      docs).

(** *** A host to run the handlers on

    Universal time, an engine that reads nothing but the date-only form,
    regular expressions restricted to the patterns made of letters,
    digits and spaces, on which a case-insensitive test is a
    case-insensitive substring search, and a database that adds exactly.
    (Any other pattern is refused by this engine; it is used on literal
    patterns only.  The prices of the sample data are whole numbers, which
    doubles add without rounding.) *)

Definition toLower (c : ascii) : ascii :=
  let n := N_of_ascii c in
  if ((65 <=? n) && (n <=? 90))%N then ascii_of_N (n + 32) else c.

Definition isLiteral (c : ascii) : bool :=
  let n := N_of_ascii c in
  ((48 <=? n) && (n <=? 57) || (65 <=? n) && (n <=? 90)
   || (97 <=? n) && (n <=? 122) || (n =? 32))%N.

Fixpoint containsAt (p l : list ascii) : bool :=
  match p, l with
  | [], _ => true
  | a :: p', b :: l' => Ascii.eqb (toLower a) (toLower b) && containsAt p' l'
  | _ :: _, [] => false
  end.

Fixpoint contains (p l : list ascii) : bool :=
  containsAt p l ||
  match l with
  | [] => false
  | _ :: l' => contains p l'
  end.

Definition literal_RegExp (pattern : string) : option (list ascii) :=
  let p := list_ascii_of_string pattern in
  if forallb isLiteral p then Some p else None.

Definition literal_test (r : list ascii) (s : string) : bool :=
  contains r (list_ascii_of_string s).

Definition no_other_dates (s : string) : TimeValue := None.

(** The host at a fixed offset of [tza] milliseconds from UTC. *)
Definition host_at (tza : Z) : Host :=
  {| LocalTZA := tza;
     parse_other := no_other_dates;
     regex := list ascii;
     RegExp := literal_RegExp;
     regex_test := literal_test;
     store_sum := exact_sum |}.

Definition utc_host : Host := host_at 0.

(** *** Sample data *)

(** 2022-03-01T00:00:00Z *)
Definition march2022 : Z := 1646092800000.

(** A record sold [i] hours into March 2022. *)
Definition sampleTransaction (i : Z) (p : Q) : ProductTransaction :=
  {| id := i;
     title := "Backpack";
     description := "Fits a laptop";
     price := p;
     dateOfSale := march2022 + i * 3600000;
     category := if Z.even i then "bags" else "outdoor";
     sold := Z.even i |}.

Definition elevenInMarch : Store :=
  {| collection :=
       List.map (fun i => sampleTransaction i (inject_Z (10 * i)))
                [1; 2; 3; 4; 5; 6; 7; 8; 9; 10; 11];
     faults := [] |}.

(** One record of March 2022, priced 200. *)
Definition oneAt200 : Store :=
  {| collection := [sampleTransaction 1 200]; faults := [] |}.

(** The same records, with the third command to come rejected. *)
Definition thirdCommandFails : Store :=
  {| collection := collection elevenInMarch;
     faults := [false; false; true] |}.

Definition freeSample : ProductTransaction :=
  {| id := 12;
     title := "Free sample";
     description := "A gift";
     price := 0;
     dateOfSale := march2022;
     category := "gifts";
     sold := true |}.

(** The records of [elevenInMarch] behind two that a search for "pack" in
    March 2022 has to leave out: one of March that does not bear the word,
    and a backpack sold on April 3. *)
Definition marchAmongOthers : Store :=
  {| collection :=
       freeSample :: sampleTransaction 800 50 :: collection elevenInMarch;
     faults := [] |}.

(** One record, sold on 2022-03-30 at 04:00 UTC. *)
Definition endOfMarch : Store :=
  {| collection := [sampleTransaction 700 50]; faults := [] |}.

(** The request of a month with nothing else. *)
Definition monthQuery (m : string) : Query :=
  {| month := m; search := None; page := None; perPage := None |}.


End Server.

(* ================================================================== *)
(** ** Seeding the collection *)
(* ================================================================== *)

Module Seeding.
Import Mongo.

(** A document of the downloaded data set as Mongoose sees it: the
    transaction it casts to under [productTransactionSchema], or [None]
    when one of its fields cannot be cast. *)
Definition RawDocument : Type := option ProductTransaction.

(** [res.status(code).send(text)] *)
Record Reply : Type := {
  status : Z;
  text : string
}.

(** One writing command sent to the server.  A command that goes through
    has been applied in full.  Of a command that is rejected the handler
    does not know what the server did with it (none of it, part of it, or
    all of it with the answer lost); the collection is kept as it was
    here, and what is proved of [api_init] is about commands that go
    through and commands that are never sent. *)
Definition write_command
    (update : list ProductTransaction -> list ProductTransaction)
  : Async unit :=
  fun s =>
    match faults s with
    | true :: rest =>
        (Rejected MongoError, {| collection := collection s; faults := rest |})
    | false :: rest =>
        (Fulfilled tt, {| collection := update (collection s); faults := rest |})
    | [] =>
        (Fulfilled tt, {| collection := update (collection s); faults := [] |})
    end.

(** [Model.deleteMany({})] *)
Definition deleteMany_all : Async unit := write_command (fun _ => []).

(** The documents of [data] cast to the schema, when all of them can be. *)
Fixpoint castAll (data : list RawDocument) : option (list ProductTransaction) :=
  match data with
  | [] => Some []
  | Some t :: rest =>
      match castAll rest with
      | Some l => Some (t :: l)
      | None => None
      end
  | None :: _ => None
  end.

(** [Model.insertMany(data)]: Mongoose validates every document before
    anything is sent; when one of them fails, nothing is inserted and the
    call is rejected (with a ValidationError, made of the cast errors of
    the fields).  Otherwise one insert command carries the documents.
    (For an empty array Mongoose returns at once without a command; the
    command sent here in that case inserts nothing.) *)
Definition insertMany (data : list RawDocument) : Async unit :=
  match castAll data with
  | Some docs => write_command (fun c => c ++ docs)
  | None => reject CastError
  end.

(** [app.get('/api/init', ...)].  [download] is what
    [await axios.get(url)] gives: the body of the response, or [None] when
    the request fails and axios throws. *)
Definition api_init (download : option (list RawDocument))
  : Store -> Reply * Store :=
  fun s =>
    match download with
    | None =>
        ({| status := 500; text := "Error initializing database" |}, s)
    | Some data =>
        match (_ ← deleteMany_all; insertMany data) s with
        | (Fulfilled _, s') =>
            ({| status := 200;
                text := "Database initialized with seed data" |}, s')
        | (Rejected _, s') =>
            ({| status := 500; text := "Error initializing database" |}, s')
        end
    end.

End Seeding.

(* ================================================================== *)
(** ** Vocabulary of the calendar *)
(* ================================================================== *)

Module MonthLength.
Import ESDate.

(** The number of days of month [m] (1..12) of year [y]. *)
Definition daysInMonth (y m : Z) : Z :=
  if m =? 2 then DaysInYear y - 337
  else if (m =? 4) || (m =? 6) || (m =? 9) || (m =? 11) then 30
  else 31.

(** The month before [(y, m)]. *)
Definition previousMonth (y m : Z) : Z * Z :=
  if m =? 1 then (y - 1, 12) else (y, m - 1).

End MonthLength.

(* ================================================================== *)
(** ** Vocabulary of the groups *)
(* ================================================================== *)

Module Tally.

(** The sum of the counts of a grouping. *)
Definition counted (m : gmap string nat) : nat :=
  list_sum (List.map snd (map_to_list m)).

End Tally.

(* ================================================================== *)
(** ** Facts about dates *)
(* ================================================================== *)

Module ESDateFacts.
Import ESDate.

(** Linear arithmetic with floor division and remainder by constants. *)
Ltac div_lia := Z.div_mod_to_equations; lia.

Ltac case_mods :=
  repeat match goal with |- context [ (?a mod ?b =? 0) ] =>
    destruct (Z.eqb_spec (a mod b) 0); cbn [negb] end.

Lemma DayFromYear_succ y : DayFromYear (y + 1) = DayFromYear y + DaysInYear y.
Proof.
  unfold DayFromYear, DaysInYear.
  case_mods; div_lia.
Qed.

Lemma DaysInYear_bounds y : 365 <= DaysInYear y <= 366.
Proof.
  unfold DaysInYear.
  case_mods; div_lia.
Qed.

Lemma YearFromDay_unique y d :
  DayFromYear y <= d < DayFromYear (y + 1) -> YearFromDay d = y.
Proof.
  intros H. unfold YearFromDay.
  set (e := 1970 + 400 * d / 146097).
  assert (He : y - 1 <= e <= y + 1).
  { unfold e, DayFromYear in *. div_lia. }
  assert (Hm1 : DayFromYear (y - 1) < DayFromYear y).
  { pose proof (DayFromYear_succ (y - 1)) as E.
    replace (y - 1 + 1) with y in E by lia.
    pose proof (DaysInYear_bounds (y - 1)). lia. }
  assert (Hp1 : DayFromYear (y + 1) < DayFromYear (y + 2)).
  { pose proof (DayFromYear_succ (y + 1)) as E.
    replace (y + 1 + 1) with (y + 2) in E by lia.
    pose proof (DaysInYear_bounds (y + 1)). lia. }
  assert (C : e = y - 1 \/ e = y \/ e = y + 1) by lia.
  destruct C as [-> | [-> | ->]].
  - replace (y - 1 + 1) with y by lia.
    destruct (Z.ltb_spec d (DayFromYear (y - 1))); [lia|].
    destruct (Z.leb_spec (DayFromYear y) d); lia.
  - destruct (Z.ltb_spec d (DayFromYear y)); [lia|].
    destruct (Z.leb_spec (DayFromYear (y + 1)) d); lia.
  - replace (y + 1 + 1) with (y + 2) by lia.
    destruct (Z.ltb_spec d (DayFromYear (y + 1))); lia.
Qed.

Lemma div_shift z k c : 0 < c -> (z - c * k) / c = z / c - k.
Proof.
  intros Hc. replace (z - c * k) with (z + (- k) * c) by lia.
  rewrite Z.div_add by lia. lia.
Qed.

Lemma DayFromYear_leapDays y :
  DayFromYear y = 365 * y + leapDays (y - 1) - 719527.
Proof.
  unfold DayFromYear, leapDays.
  replace (y - 1969) with (y - 1 - 4 * 492) by lia.
  replace (y - 1901) with (y - 1 - 100 * 19) by lia.
  replace (y - 1601) with (y - 1 - 400 * 4) by lia.
  rewrite !div_shift by lia. lia.
Qed.

Lemma leapDays_succ y :
  leapDays y = leapDays (y - 1) + (if DaysInYear y =? 366 then 1 else 0).
Proof.
  unfold leapDays, DaysInYear.
  assert (H4 : y / 4 = (y - 1) / 4 + (if y mod 4 =? 0 then 1 else 0)).
  { destruct (Z.eqb_spec (y mod 4) 0); div_lia. }
  assert (H100 : y / 100 = (y - 1) / 100 + (if y mod 100 =? 0 then 1 else 0)).
  { destruct (Z.eqb_spec (y mod 100) 0); div_lia. }
  assert (H400 : y / 400 = (y - 1) / 400 + (if y mod 400 =? 0 then 1 else 0)).
  { destruct (Z.eqb_spec (y mod 400) 0); div_lia. }
  rewrite H4, H100, H400.
  assert (y mod 400 = 0 -> y mod 100 = 0) by div_lia.
  assert (y mod 100 = 0 -> y mod 4 = 0) by div_lia.
  destruct (Z.eqb_spec (y mod 4) 0), (Z.eqb_spec (y mod 100) 0),
    (Z.eqb_spec (y mod 400) 0); cbn; lia.
Qed.

Lemma era_leapDays z :
  let era := z / 400 in
  let yoe := z - era * 400 in
  era * 146097 + (yoe * 365 + yoe / 4 - yoe / 100) = 365 * z + leapDays z.
Proof.
  cbv zeta. unfold leapDays.
  assert (z / 4 = 100 * (z / 400) + (z - z / 400 * 400) / 4) by div_lia.
  assert (z / 100 = 4 * (z / 400) + (z - z / 400 * 400) / 100) by div_lia.
  lia.
Qed.

Lemma days_from_civil_leapDays y m d :
  days_from_civil y m d =
  let y' := if m <=? 2 then y - 1 else y in
  let mp := if m <=? 2 then m + 9 else m - 3 in
  365 * y' + leapDays y' + ((153 * mp + 2) / 5 + d - 1) - 719468.
Proof.
  unfold days_from_civil. cbv zeta.
  pose proof (era_leapDays (if m <=? 2 then y - 1 else y)) as E.
  cbv zeta in E. lia.
Qed.

Lemma DayFromYearMonth_civil y m :
  1 <= m <= 12 -> DayFromYearMonth y (m - 1) = days_from_civil y m 1.
Proof.
  intros Hm.
  rewrite days_from_civil_leapDays. unfold DayFromYearMonth.
  rewrite DayFromYear_leapDays. pose proof (leapDays_succ y) as L.
  assert (C : m = 1 \/ m = 2 \/ m = 3 \/ m = 4 \/ m = 5 \/ m = 6 \/ m = 7
              \/ m = 8 \/ m = 9 \/ m = 10 \/ m = 11 \/ m = 12) by lia.
  repeat destruct C as [-> | C]; try subst m;
    destruct (DaysInYear y =? 366);
    cbn -[Z.mul Z.div Z.modulo leapDays DaysInYear];
    match goal with |- context [(?a / 5)] =>
      let v := eval vm_compute in (a / 5) in change (a / 5) with v end;
    match goal with |- context [?a - 1] =>
      match a with y => fail 1 | _ =>
      let v := eval vm_compute in (a - 1) in change (a - 1) with v end end;
    cbv iota; lia.
Qed.

(** The local calendar fields of an instant on the first day of a month,
    in a zone at or east of UTC. *)
Lemma first_day_fields y mn tz :
  0 <= mn <= 11 -> 0 <= tz < msPerDay ->
  let t := DayFromYearMonth y mn * msPerDay + tz in
  YearFromTime t = y /\ MonthFromTime t = mn /\ DateFromTime t = 1
  /\ TimeWithinDay t = tz.
Proof.
  intros Hmn Htz t.
  set (l := if DaysInYear y =? 366 then 1 else 0).
  assert (Hl : 0 <= l <= 1) by (unfold l; destruct (DaysInYear y =? 366); lia).
  assert (HD : Day t = DayFromYearMonth y mn).
  { unfold Day, t, msPerDay in *. div_lia. }
  assert (HT : TimeWithinDay t = tz).
  { unfold TimeWithinDay, t, msPerDay in *. div_lia. }
  clearbody t.
  assert (Hoff : exists off, DayFromYearMonth y mn = DayFromYear y + off
                  /\ 0 <= off <= 334 + l
                  /\ off = match mn with
                           | 0 => 0 | 1 => 31 | 2 => 59 + l | 3 => 90 + l
                           | 4 => 120 + l | 5 => 151 + l | 6 => 181 + l
                           | 7 => 212 + l | 8 => 243 + l | 9 => 273 + l
                           | 10 => 304 + l | _ => 334 + l
                           end).
  { eexists. split; [reflexivity|]. split; [|reflexivity].
    assert (C : mn = 0 \/ mn = 1 \/ mn = 2 \/ mn = 3 \/ mn = 4 \/ mn = 5
                \/ mn = 6 \/ mn = 7 \/ mn = 8 \/ mn = 9 \/ mn = 10 \/ mn = 11)
      by lia.
    fold l.
    repeat destruct C as [-> | C]; try subst mn; lia. }
  destruct Hoff as (off & Hoff & Hrange & Hval).
  assert (HY : YearFromTime t = y).
  { unfold YearFromTime. rewrite HD. apply YearFromDay_unique.
    rewrite DayFromYear_succ. pose proof (DaysInYear_bounds y).
    assert (l = 1 -> DaysInYear y = 366).
    { unfold l. destruct (Z.eqb_spec (DaysInYear y) 366); lia. }
    lia. }
  assert (HL : InLeapYear t = l).
  { unfold InLeapYear. rewrite HY. reflexivity. }
  assert (HW : DayWithinYear t = off).
  { unfold DayWithinYear. rewrite HD, HY. lia. }
  assert (HM : MonthFromTime t = mn).
  { unfold MonthFromTime. rewrite HW, HL. cbv zeta.
    assert (C : mn = 0 \/ mn = 1 \/ mn = 2 \/ mn = 3 \/ mn = 4 \/ mn = 5
                \/ mn = 6 \/ mn = 7 \/ mn = 8 \/ mn = 9 \/ mn = 10 \/ mn = 11)
      by lia.
    repeat destruct C as [-> | C]; try subst mn; subst off;
      repeat match goal with |- context [ (?a <? ?b) ] =>
        destruct (Z.ltb_spec a b); try lia end; reflexivity. }
  repeat split; try assumption.
  unfold DateFromTime. rewrite HM, HW, HL. clear HM. cbv zeta.
  assert (C : mn = 0 \/ mn = 1 \/ mn = 2 \/ mn = 3 \/ mn = 4 \/ mn = 5
              \/ mn = 6 \/ mn = 7 \/ mn = 8 \/ mn = 9 \/ mn = 10 \/ mn = 11)
    by lia.
  repeat destruct C as [-> | C]; try subst mn; rewrite Hval; cbv iota; lia.
Qed.

(** December carries into January of the following year. *)
Lemma MakeDay_next y m :
  1 <= m <= 12 ->
  MakeDay y m 1 =
  DayFromYearMonth (fst (nextMonth y m)) (snd (nextMonth y m) - 1).
Proof.
  intros Hm. unfold MakeDay, nextMonth.
  destruct (Z.eqb_spec m 12) as [-> | Hne]; cbn [fst snd].
  - change (12 / 12) with 1. change (12 mod 12) with 0.
    change (1 - 1) with 0. lia.
  - rewrite Z.div_small, Z.mod_small by lia.
    replace (y + 0) with y by lia. replace (m + 1 - 1) with m by lia. lia.
Qed.

Lemma days_from_civil_range y m :
  0 <= y <= 10000 -> 1 <= m <= 12 ->
  -720000 <= days_from_civil y m 1 <= 2940000.
Proof.
  intros Hy Hm. rewrite days_from_civil_leapDays. cbv zeta.
  unfold leapDays.
  destruct (Z.leb_spec m 2); div_lia.
Qed.

Lemma TimeClip_firstInstant y m :
  0 <= y <= 10000 -> 1 <= m <= 12 ->
  TimeClip (firstInstant y m) = Some (firstInstant y m).
Proof.
  intros Hy Hm. unfold TimeClip, firstInstant.
  pose proof (days_from_civil_range y m Hy Hm).
  destruct (Z.leb_spec (Z.abs (msPerDay * days_from_civil y m 1))
                       8640000000000000); [reflexivity|].
  unfold msPerDay in *. lia.
Qed.

Lemma digit_digitChar n : 0 <= n <= 9 -> digit (digitChar n) = Some n.
Proof.
  intros Hn.
  assert (H : In n [0; 1; 2; 3; 4; 5; 6; 7; 8; 9]) by (cbn [In]; lia).
  cbn [In] in H.
  repeat destruct H as [<- | H]; try reflexivity. destruct H.
Qed.

Lemma dateOnly_yearMonth y m :
  0 <= y <= 9999 -> 1 <= m <= 12 ->
  dateOnly (yearMonth y m ++ "-01") = Some (y, m, 1).
Proof.
  intros Hy Hm. unfold dateOnly, yearMonth.
  cbv [String.append list_ascii_of_string].
  cbn -[digit digitChar Z.div Z.modulo Z.mul Z.add].
  rewrite !digit_digitChar by div_lia.
  change (digit "0") with (Some 0). change (digit "1") with (Some 1).
  cbv iota beta. f_equal. f_equal. f_equal; div_lia.
Qed.

End ESDateFacts.

Module JSNumberFacts.
Import JSNumber.

Example parseFloat_200 : parseFloat "200" = Fin 200.
Proof. reflexivity. Qed.
Example parseFloat_abc : parseFloat "abc" = NaN.
Proof. reflexivity. Qed.
Example parseFloat_prefix : parseFloat "  12.50e1xyz" = Fin 125.
Proof. reflexivity. Qed.
Example parseFloat_frac : parseFloat "-.5" = Fin (-1 # 2).
Proof. reflexivity. Qed.
Example parseFloat_dot : parseFloat "." = NaN.
Proof. reflexivity. Qed.
Example parseFloat_zero : or_else (parseFloat "0") (Fin (-1)) = Fin (-1).
Proof. reflexivity. Qed.

End JSNumberFacts.

(* ================================================================== *)
(** ** The month window *)
(* ================================================================== *)

Module WindowFacts.
Import ESDate ESDateFacts Server.

Lemma parse_yearMonth (other : string -> TimeValue) y m :
  0 <= y <= 9999 -> 1 <= m <= 12 ->
  parse other (yearMonth y m ++ "-01") = Some (firstInstant y m)
  /\ firstInstant y m = DayFromYearMonth y (m - 1) * msPerDay.
Proof.
  intros Hy Hm. unfold parse. rewrite dateOnly_yearMonth by assumption.
  assert (Hb : (1 <=? m) && (m <=? 12) && (1 <=? 1) && (1 <=? 31) = true).
  { destruct (Z.leb_spec 1 m), (Z.leb_spec m 12); try lia; reflexivity. }
  rewrite Hb.
  assert (E : MakeDate (MakeDay y (m - 1) 1) 0 = firstInstant y m).
  { unfold MakeDate, MakeDay, firstInstant.
    rewrite Z.div_small, Z.mod_small by lia.
    rewrite <- DayFromYearMonth_civil by assumption.
    replace (y + 0) with y by lia. lia. }
  rewrite E. split.
  - apply TimeClip_firstInstant; lia.
  - unfold firstInstant. rewrite DayFromYearMonth_civil by assumption. lia.
Qed.

Lemma nextMonth_range y m :
  0 <= y <= 9999 -> 1 <= m <= 12 ->
  0 <= fst (nextMonth y m) <= 10000 /\ 1 <= snd (nextMonth y m) <= 12.
Proof.
  intros Hy Hm. unfold nextMonth.
  destruct (Z.eqb_spec m 12); cbn [fst snd]; lia.
Qed.

Lemma monthWindow_yearMonth (host : Host) (y m : Z) :
  0 <= LocalTZA host < msPerDay ->
  0 <= y <= 9999 -> 1 <= m <= 12 ->
  monthWindow host (yearMonth y m)
  = (Some (firstInstant y m),
     Some (firstInstant (fst (nextMonth y m)) (snd (nextMonth y m)))).
Proof.
  intros Htz Hy Hm. unfold monthWindow.
  destruct (parse_yearMonth (parse_other host) y m Hy Hm) as [-> Hfirst].
  f_equal. unfold getMonth, setMonth, option_map, LocalTime.
  rewrite Hfirst.
  destruct (first_day_fields y (m - 1) (LocalTZA host) ltac:(lia) Htz)
    as (HY & HM & HD & HT).
  rewrite HY, HM, HD, HT.
  replace (m - 1 + 1) with m by lia.
  rewrite MakeDay_next by assumption.
  destruct (nextMonth_range y m Hy Hm) as [Hy' Hm'].
  set (y' := fst (nextMonth y m)) in *. set (m' := snd (nextMonth y m)) in *.
  rewrite (DayFromYearMonth_civil y' m') by assumption.
  replace (UTC (LocalTZA host)
             (MakeDate (days_from_civil y' m' 1) (LocalTZA host)))
    with (firstInstant y' m')
    by (unfold UTC, MakeDate, firstInstant; lia).
  apply TimeClip_firstInstant; assumption.
Qed.

(** X20.  On a host whose local time is at a fixed offset at or east of
    UTC (0 <= offset < 24 h), every well-formed year-month selector
    resolves to [start] = the first instant of that month and [end] = the
    first instant of the following month; December rolls over to January of
    the next year.  "2022-03" gives 2022-03-01T00:00Z .. 2022-04-01T00:00Z
    and "2022-12" gives 2022-12-01T00:00Z .. 2023-01-01T00:00Z. *)
Theorem monthWindow_first_instants (host : Host) :
  0 <= LocalTZA host < msPerDay ->
  (forall y m, 0 <= y <= 9999 -> 1 <= m <= 12 ->
     monthWindow host (yearMonth y m)
     = (Some (firstInstant y m),
        Some (firstInstant (fst (nextMonth y m)) (snd (nextMonth y m)))))
  /\ (forall y, 0 <= y <= 9999 ->
        snd (monthWindow host (yearMonth y 12)) = Some (firstInstant (y + 1) 1))
  /\ monthWindow host "2022-03" = (Some 1646092800000, Some 1648771200000)
  /\ monthWindow host "2022-12" = (Some 1669852800000, Some 1672531200000).
Proof.
  intros Htz. split; [|split; [|split]].
  - intros y m Hy Hm. apply monthWindow_yearMonth; assumption.
  - intros y Hy. rewrite monthWindow_yearMonth by (assumption || lia).
    reflexivity.
  - change "2022-03"%string with (yearMonth 2022 3).
    rewrite monthWindow_yearMonth by (assumption || lia). reflexivity.
  - change "2022-12"%string with (yearMonth 2022 12).
    rewrite monthWindow_yearMonth by (assumption || lia). reflexivity.
Qed.

Lemma monthWindow_first_instants_witness :
  monthWindow utc_host "2022-03" = (Some 1646092800000, Some 1648771200000).
Proof.
  apply (monthWindow_first_instants utc_host).
  unfold utc_host, host_at, LocalTZA, msPerDay. lia.
Defined.

(** Five hours west of UTC the window of March 2022 is not the one from
    the first instant of March to the first instant of April. *)
Lemma monthWindow_west_of_UTC :
  monthWindow (host_at (-18000000)) (yearMonth 2022 3)
  <> (Some (firstInstant 2022 3),
      Some (firstInstant (fst (nextMonth 2022 3)) (snd (nextMonth 2022 3)))).
Proof. vm_compute. discriminate. Qed.

Example monthWindow_west_of_UTC_value :
  monthWindow (host_at (-18000000)) "2022-03"
  = (Some 1646092800000, Some (1646092800000 + 28 * msPerDay)).
Proof. vm_compute. reflexivity. Qed.

(** C4 at the selector "2022-03" on a host five hours west of UTC.  The
    window asked for runs from 2022-03-01T00:00Z to 2022-04-01T00:00Z.
    The start the code computes is right, the end is 2022-03-29T00:00Z,
    three days short: the date string is read as UTC midnight, but
    [getMonth] and [setMonth] work on the local date, which at that
    instant is still the evening of February 28, and one month after
    February 28 is March 28.  A record sold on March 30 is then missing
    from the transactions of March. *)
Theorem monthWindow_ends_early_west_of_UTC :
  firstInstant 2022 3 = 1646092800000
  /\ firstInstant 2022 4 = 1648771200000
  /\ monthWindow (host_at (-18000000)) "2022-03"
     = (Some 1646092800000, Some 1648512000000)
  /\ 1648512000000 = firstInstant 2022 4 - 3 * msPerDay
  /\ inWindow (firstInstant 2022 3) (firstInstant 2022 4)
              (sampleTransaction 700 50) = true
  /\ fst (api_transactions (host_at (-18000000)) (monthQuery "2022-03")
            endOfMarch)
     = Json200 ([], 0%nat).
Proof. repeat split; vm_compute; reflexivity. Qed.

End WindowFacts.

(* ================================================================== *)
(** ** Facts about the store *)
(* ================================================================== *)

Module MongoFacts.
Import ESDate JSNumber Mongo.

Lemma command_healthy {A} (run : list ProductTransaction -> Settled A) s :
  healthy s -> command run s = (run (collection s), s).
Proof. unfold healthy, command. intros ->. reflexivity. Qed.

Lemma command_collection {A} (run : list ProductTransaction -> Settled A) s :
  collection (snd (command run s)) = collection s.
Proof. unfold command. destruct (faults s) as [|[] ?]; reflexivity. Qed.

Lemma command_fulfilled {A} (run : list ProductTransaction -> Settled A) s a s' :
  command run s = (Fulfilled a, s') ->
  run (collection s) = Fulfilled a /\ collection s' = collection s.
Proof.
  unfold command. destruct (faults s) as [|[] ?]; intros [= <- <-]; auto.
Qed.

Section WithEngine.
Context {regex : Type} (test : regex -> string -> bool).

Lemma countDocuments_healthy (flt : Filter regex) s :
  healthy s -> cast flt = true ->
  countDocuments test flt s
  = (Fulfilled (length (List.filter (matches test flt) (collection s))), s).
Proof.
  intros Hs Hc. unfold countDocuments. rewrite Hc.
  apply command_healthy, Hs.
Qed.

Lemma countDocuments_fulfilled (flt : Filter regex) s n s' :
  countDocuments test flt s = (Fulfilled n, s') ->
  cast flt = true
  /\ n = length (List.filter (matches test flt) (collection s))
  /\ collection s' = collection s.
Proof.
  unfold countDocuments. destruct (cast flt); [|discriminate].
  intros H. apply command_fulfilled in H as [[= <-] ?]. auto.
Qed.

Lemma countDocuments_uncastable (flt : Filter regex) s :
  cast flt = false -> countDocuments test flt s = (Rejected CastError, s).
Proof. intros Hc. unfold countDocuments. rewrite Hc. reflexivity. Qed.

Lemma find_uncastable (flt : Filter regex) skip limit s :
  cast flt = false -> find test flt skip limit s = (Rejected CastError, s).
Proof. intros Hc. unfold find. rewrite Hc. reflexivity. Qed.

Lemma find_healthy (flt : Filter regex) skip limit s :
  healthy s -> cast flt = true ->
  find test flt skip limit s
  = (if skip <? 0 then Rejected MongoError
     else Fulfilled (applyLimit limit
            (skipn (Z.to_nat skip)
                   (List.filter (matches test flt) (collection s)))), s).
Proof.
  intros Hs Hc. unfold find. rewrite Hc.
  apply command_healthy, Hs.
Qed.

Lemma countDocuments_collection (flt : Filter regex) s :
  collection (snd (countDocuments test flt s)) = collection s.
Proof.
  unfold countDocuments. destruct (cast flt); [apply command_collection|].
  reflexivity.
Qed.

Lemma find_collection (flt : Filter regex) skip limit s :
  collection (snd (find test flt skip limit s)) = collection s.
Proof.
  unfold find. destruct (cast flt); [apply command_collection|].
  reflexivity.
Qed.

End WithEngine.

End MongoFacts.

(* ================================================================== *)
(** ** List Transactions *)
(* ================================================================== *)

Module TransactionFacts.
Import ESDate JSNumber Mongo MongoFacts Server.

Section WithHost.
Variable host : Host.

(** The predicate of the filter of [/api/transactions]. *)
Lemma transactionsFilter_matches a b r search t :
  matches (regex_test host)
          (transactionsFilter host (Some a) (Some b) r search) t
  = inWindow a b t
    && (regex_test host r (title t)
        || regex_test host r (description t)
        || JSNumber.eqb (price t) (or_else (parseFloat search) (Fin (-1)))).
Proof.
  unfold transactionsFilter, matches, inWindow. cbn.
  rewrite orb_false_r, andb_true_r, orb_assoc. reflexivity.
Qed.

Lemma transactionsFilter_cast a b r search :
  cast (transactionsFilter host a b r search) = true
  <-> (exists a' b', a = Some a' /\ b = Some b').
Proof.
  unfold transactionsFilter, cast. cbn.
  destruct a, b; cbn; split; intros H; try discriminate; eauto;
    destruct H as (? & ? & ? & ?); discriminate.
Qed.

(** The response on a healthy store, for a window that is valid and a
    search that is a regular expression. *)
Lemma api_transactions_healthy q s r a b srch p n :
  healthy s ->
  default ""%string (search q) = srch ->
  default 1 (page q) = p ->
  default 10 (perPage q) = n ->
  RegExp host srch = Some r ->
  monthWindow host (month q) = (Some a, Some b) ->
  let found := List.filter
      (matches (regex_test host)
         (transactionsFilter host (Some a) (Some b) r srch))
      (collection s) in
  api_transactions host q s
  = (if (p - 1) * n <? 0 then Text500 "Error fetching transactions"%string
     else Json200 (applyLimit n (skipn (Z.to_nat ((p - 1) * n)) found),
                   length found), s).
Proof.
  intros Hs <- <- <- Hr Hw found. unfold api_transactions.
  rewrite Hr, Hw. unfold try_catch, mbind, Async_bind, mret, Async_ret.
  rewrite find_healthy by (assumption || reflexivity).
  destruct ((default 1 (page q) - 1) * default 10 (perPage q) <? 0);
    [reflexivity|].
  rewrite countDocuments_healthy by (assumption || reflexivity).
  reflexivity.
Qed.

(** *** Pagination *)

Lemma chunks_concat {A} (n N : nat) (l : list A) :
  (0 < n)%nat -> (length l <= N * n)%nat ->
  concat (List.map (fun k => firstn n (skipn (k * n) l)) (seq 0 N)) = l.
Proof.
  intros Hn. revert l. induction N as [|N IH]; intros l Hl.
  - destruct l; [reflexivity | cbn in Hl; lia].
  - cbn [seq List.map concat]. rewrite <- seq_shift, List.map_map.
    cbn [Nat.mul skipn].
    transitivity (firstn n l ++ skipn n l); [|apply firstn_skipn].
    f_equal.
    etransitivity; [|apply (IH (skipn n l)); rewrite length_skipn; lia].
    f_equal. apply List.map_ext. intros k.
    rewrite skipn_skipn. f_equal. f_equal. lia.
Qed.

Lemma pageCount_covers (total : nat) (n : Z) :
  1 <= n -> (total <= pageCount total n * Z.to_nat n)%nat.
Proof.
  intros Hn. unfold pageCount.
  assert (H : Z.of_nat total <= (Z.of_nat total + n - 1) / n * n).
  { Z.div_mod_to_equations. nia. }
  assert (0 <= (Z.of_nat total + n - 1) / n).
  { apply Z.div_pos; lia. }
  rewrite <- Z2Nat.inj_mul by lia. lia.
Qed.

Lemma slice_of_page {A} (p n : Z) (l : list A) :
  1 <= p -> 1 <= n ->
  (if (p - 1) * n <? 0 then @Text500 (list A * nat) "Error fetching transactions"
   else Json200 (applyLimit n (skipn (Z.to_nat ((p - 1) * n)) l), length l))
  = Json200 (firstn (Z.to_nat n) (skipn (Z.to_nat (p - 1) * Z.to_nat n) l),
             length l).
Proof.
  intros Hp Hn. destruct (Z.ltb_spec ((p - 1) * n) 0); [nia|].
  unfold applyLimit. destruct (Z.eqb_spec n 0); [lia|].
  rewrite Z.abs_eq, Z2Nat.inj_mul by lia. reflexivity.
Qed.

(** The matches of the filter are the records of the window that pass
    one of the three tests of the search. *)
Lemma found_by_conditions a b r srch docs :
  List.filter
    (matches (regex_test host)
       (transactionsFilter host (Some a) (Some b) r srch)) docs
  = List.filter
      (fun t =>
         inWindow a b t
         && (regex_test host r (title t)
             || regex_test host r (description t)
             || JSNumber.eqb (price t) (or_else (parseFloat srch) (Fin (-1)))))
      docs.
Proof. apply List.filter_ext. intros t. apply transactionsFilter_matches. Qed.



End WithHost.

(** *** The price branch of the search *)

(** A search whose number is not zero matches exactly the records of that
    price. *)
Lemma price_branch_number search x (t : ProductTransaction) :
  parseFloat search = Fin x -> ~ (x == 0)%Q ->
  JSNumber.eqb (price t) (or_else (parseFloat search) (Fin (-1))) = true
  <-> (price t == x)%Q.
Proof.
  intros -> Hx. unfold or_else, truthy.
  destruct (Qeq_bool x 0) eqn:E.
  - apply Qeq_bool_iff in E. contradiction.
  - cbn. apply Qeq_bool_iff.
Qed.

(** A search that is not a number never matches a record through its
    price, as long as prices are not negative. *)
Lemma price_branch_not_a_number search (t : ProductTransaction) :
  parseFloat search = NaN -> (0 <= price t)%Q ->
  JSNumber.eqb (price t) (or_else (parseFloat search) (Fin (-1))) = false.
Proof.
  intros -> Hp. cbn. destruct (Qeq_bool (price t) (-1)) eqn:E; [|reflexivity].
  apply Qeq_bool_iff in E. rewrite E in Hp.
  unfold Qle in Hp. cbn in Hp. lia.
Qed.

(** A search whose number is zero is replaced by the sentinel as well. *)
Lemma price_branch_zero search x (t : ProductTransaction) :
  parseFloat search = Fin x -> (x == 0)%Q -> (0 <= price t)%Q ->
  JSNumber.eqb (price t) (or_else (parseFloat search) (Fin (-1))) = false.
Proof.
  intros -> Hx Hp. unfold or_else, truthy.
  apply Qeq_bool_iff in Hx. rewrite Hx. cbn.
  destruct (Qeq_bool (price t) (-1)) eqn:E; [|reflexivity].
  apply Qeq_bool_iff in E. rewrite E in Hp.
  unfold Qle in Hp. cbn in Hp. lia.
Qed.

(** With an empty search every record of the window matches, on a host
    whose empty regular expression matches every string. *)
Lemma empty_search_matches host r a b t :
  (forall s, regex_test host r s = true) ->
  matches (regex_test host)
          (transactionsFilter host (Some a) (Some b) r "") t
  = inWindow a b t.
Proof.
  intros Hall. rewrite transactionsFilter_matches, Hall. cbn.
  apply andb_true_r.
Qed.

End TransactionFacts.

Module TransactionExamples.
Import ESDate JSNumber Mongo MongoFacts Server TransactionFacts.




(** With [page = 0] the default page size gives the offset -10 and the
    request ends in the error result. *)
Example page_zero_is_refused :
  fst (api_transactions utc_host
         {| month := "2022-03"; search := None;
            page := Some 0; perPage := None |}
         elevenInMarch)
  = Text500 "Error fetching transactions"%string.
Proof. vm_compute. reflexivity. Qed.

(** C1 at the search text "0": the text parses as the number 0 and the
    record's price is 0, yet the record of the window is not returned:
    [parseFloat(search) || -1] has replaced the 0 by the sentinel. *)
Theorem search_zero_misses_price_zero :
  parseFloat "0" = Fin 0
  /\ (price freeSample == 0)%Q
  /\ inWindow 1646092800000 1648771200000 freeSample = true
  /\ monthWindow utc_host "2022-03" = (Some 1646092800000, Some 1648771200000)
  /\ fst (api_transactions utc_host
            {| month := "2022-03"; search := Some "0"%string;
               page := None; perPage := None |}
            {| collection := [freeSample]; faults := [] |})
     = Json200 ([], 0%nat).
Proof. repeat split; vm_compute; reflexivity. Qed.

(** Search semantics on the sample of the spec: "200" finds both the
    record priced 200 and the record whose title holds "200". *)
Example search_200 :
  let priced := sampleTransaction 1 200 in
  let titled :=
    {| id := 2; title := "item 200x"; description := "A thing"; price := 15;
       dateOfSale := march2022; category := "things"; sold := false |} in
  fst (api_transactions utc_host
         {| month := "2022-03"; search := Some "200"%string;
            page := None; perPage := None |}
         {| collection := [priced; titled; freeSample]; faults := [] |})
  = Json200 ([priced; titled], 2%nat).
Proof. vm_compute. reflexivity. Qed.

(** A search that is not a regular expression is thrown on outside the
    [try] block: the request is never answered. *)
Example search_not_a_regex :
  RegExp utc_host "(" = None
  /\ fst (api_transactions utc_host
            {| month := "2022-03"; search := Some "("%string;
               page := None; perPage := None |}
            elevenInMarch)
     = NoResponse.
Proof. split; reflexivity. Qed.

End TransactionExamples.

(* ================================================================== *)
(** ** Statistics *)
(* ================================================================== *)

Module StatisticsFacts.
Import ESDate JSNumber Mongo MongoFacts Server.

Lemma length_filter_filter {A} (f g : A -> bool) (l : list A) :
  length (List.filter g (List.filter f l))
  = length (List.filter (fun x => f x && g x) l).
Proof.
  induction l as [|x l IH]; [reflexivity|].
  cbn. destruct (f x); cbn; [destruct (g x); cbn; rewrite IH|]; auto.
Qed.

Lemma length_filter_split {A} (f g : A -> bool) (l : list A) :
  (length (List.filter f l)
   = length (List.filter (fun x => f x && g x) l)
     + length (List.filter (fun x => f x && negb (g x)) l))%nat.
Proof.
  induction l as [|x l IH]; [reflexivity|].
  cbn. destruct (f x), (g x); cbn; lia.
Qed.

Section WithHost.
Variable host : Host.

Lemma window_sold_matches a b v t :
  matches (regex_test host)
          [ field (dateOfSale_range (Some a) (Some b)); field (sold_eq v) ] t
  = inWindow a b t && Bool.eqb (sold t) v.
Proof. unfold matches, inWindow. cbn. rewrite andb_true_r. reflexivity. Qed.

Lemma filter_window_sold a b v docs :
  List.filter
    (matches (regex_test host)
       [ field (dateOfSale_range (Some a) (Some b)); field (sold_eq v) ]) docs
  = List.filter (fun t => inWindow a b t && Bool.eqb (sold t) v) docs.
Proof. apply List.filter_ext. intros t. apply window_sold_matches. Qed.

(** The response on a healthy store, for a valid window. *)
Lemma api_statistics_healthy q s a b :
  healthy s ->
  monthWindow host (month q) = (Some a, Some b) ->
  let soldOnes :=
    List.filter (fun t => inWindow a b t && Bool.eqb (sold t) true)
                (collection s) in
  let unsoldOnes :=
    List.filter (fun t => inWindow a b t && Bool.eqb (sold t) false)
                (collection s) in
  api_statistics host q s
  = (Json200
       {| totalSaleAmount :=
            match soldOnes with
            | [] => 0%Q
            | _ => if Qeq_bool (sumPrice (store_sum host) soldOnes) 0 then 0%Q
                   else sumPrice (store_sum host) soldOnes
            end;
          totalSoldItems := length soldOnes;
          totalNotSoldItems := length unsoldOnes |}, s).
Proof.
  intros Hs Hw soldOnes unsoldOnes. unfold api_statistics. rewrite Hw.
  unfold try_catch, mbind, Async_bind, mret, Async_ret, aggregate_sum_price.
  rewrite command_healthy by assumption.
  rewrite !countDocuments_healthy by (assumption || reflexivity).
  rewrite !filter_window_sold. fold soldOnes unsoldOnes.
  destruct soldOnes; reflexivity.
Qed.

End WithHost.

(** What [|| 0] leaves of the group the aggregation returns is the total
    of the accumulator, whatever its additions are. *)
Lemma amount_or_zero (sm : Summation) (l : list ProductTransaction) :
  (match l with
   | [] => 0
   | _ => if Qeq_bool (sumPrice sm l) 0 then 0 else sumPrice sm l
   end == sumPrice sm l)%Q.
Proof.
  destruct l as [|t l].
  - unfold sumPrice, summed. cbn [List.map fold_left].
    rewrite sum_nothing. reflexivity.
  - destruct (Qeq_bool (sumPrice sm (t :: l)) 0) eqn:Ez; [|reflexivity].
    apply Qeq_bool_iff in Ez. symmetry. exact Ez.
Qed.

(** The single pass feeds the accumulator with the prices the aggregation
    feeds it with, in the same order, and counts what the two counting
    queries count. *)
Lemma scan_acc sm a b docs (x : sum_state sm) i j :
  fold_left (scan_step sm a b) docs (x, i, j)
  = (fold_left (sum_add sm)
       (List.map price
          (List.filter (fun t => inWindow a b t && Bool.eqb (sold t) true)
                       docs)) x,
     (i + length (List.filter
                    (fun t => inWindow a b t && Bool.eqb (sold t) true) docs))%nat,
     (j + length (List.filter
                    (fun t => inWindow a b t && Bool.eqb (sold t) false) docs))%nat).
Proof.
  revert x i j. induction docs as [|t docs IH]; intros x i j; cbn.
  - rewrite !Nat.add_0_r. reflexivity.
  - destruct (inWindow a b t), (sold t); cbn; rewrite IH; cbn;
      repeat f_equal; lia.
Qed.

Lemma scan_queries sm a b docs :
  scan sm a b docs
  = (sumPrice sm (List.filter
                    (fun t => inWindow a b t && Bool.eqb (sold t) true) docs),
     length (List.filter
               (fun t => inWindow a b t && Bool.eqb (sold t) true) docs),
     length (List.filter
               (fun t => inWindow a b t && Bool.eqb (sold t) false) docs)).
Proof. unfold scan. rewrite scan_acc. reflexivity. Qed.



End StatisticsFacts.

(* ================================================================== *)
(** ** Price histogram *)
(* ================================================================== *)

Module HistogramFacts.
Import ESDate JSNumber Mongo MongoFacts Server StatisticsFacts.

Lemma Promise_all_healthy {A B} (f : A -> Async B) (g : A -> B) l s :
  (forall x, f x s = (Fulfilled (g x), s)) ->
  Promise_all (List.map f l) s = (Fulfilled (List.map g l), s).
Proof.
  intros Hf. induction l as [|x l IH]; [reflexivity|].
  cbn [List.map Promise_all]. rewrite Hf, IH. reflexivity.
Qed.

(** Double counting: the counts per bucket add up to the buckets per
    record. *)
Lemma list_sum_cons (x : nat) (l : list nat) :
  list_sum (x :: l) = (x + list_sum l)%nat.
Proof. reflexivity. Qed.

Lemma sum_counts {A B} (P : B -> A -> bool) (bs : list B) (docs : list A) :
  list_sum (List.map (fun b => length (List.filter (P b) docs)) bs)
  = list_sum (List.map (fun t => length (List.filter (fun b => P b t) bs)) docs).
Proof.
  induction docs as [|t docs IH].
  - cbn. induction bs; [reflexivity | assumption].
  - cbn [List.map]. rewrite list_sum_cons, <- IH. clear IH.
    induction bs as [|b bs IHb]; [reflexivity|].
    cbn [List.map List.filter] in *. rewrite !list_sum_cons, IHb.
    destruct (P b t); cbn [length]; lia.
Qed.

Lemma Qle_bool_false (x y : Q) : (y < x)%Q -> Qle_bool x y = false.
Proof.
  intros H. apply not_true_iff_false. rewrite Qle_bool_iff. lra.
Qed.

Lemma Qle_bool_true (x y : Q) : (x <= y)%Q -> Qle_bool x y = true.
Proof. apply Qle_bool_iff. Qed.

(** Settle every comparison of the goal from the bounds at hand. *)
Ltac settle_Qle :=
  repeat match goal with
  | |- context [Qle_bool ?x ?y] =>
      first [ rewrite (Qle_bool_true x y) by lra
            | rewrite (Qle_bool_false x y) by lra ]
  end.

(** Walk up the thresholds: below [c] the goal is settled, and from [c]
    on only the bound [c <= p] is kept. *)
Ltac below p c :=
  let Hhi := fresh "Hhi" in
  let Hlo' := fresh "Hlo'" in
  destruct (Qlt_le_dec p c) as [Hhi | Hlo'];
  [ settle_Qle; reflexivity
  | clear - Hlo' ].

Lemma length_filter_indicators {A} (f : A -> bool) (l : list A) :
  length (List.filter f l)
  = list_sum (List.map (fun x => if f x then 1%nat else 0%nat) l).
Proof.
  induction l as [|x l IH]; [reflexivity|].
  cbn [List.filter List.map]. rewrite list_sum_cons, <- IH.
  destruct (f x); reflexivity.
Qed.

(** Every price lies in exactly one bucket, or in a gap and then in
    none. *)
Lemma buckets_of_price (p : Q) :
  length (List.filter (fun r => inRange r p) priceRanges)
  = if boundaryGap p then 0%nat else 1%nat.
Proof.
  rewrite length_filter_indicators.
  unfold priceRanges, inRange, boundaryGap, JSNumber.geb, JSNumber.ltb.
  cbn [List.map min max existsb].
  below p 0%Q. below p 100%Q. below p 101%Q. below p 200%Q. below p 201%Q.
  below p 300%Q. below p 301%Q. below p 400%Q. below p 401%Q.
  below p 500%Q. below p 501%Q. below p 600%Q. below p 601%Q.
  below p 700%Q. below p 701%Q. below p 800%Q. below p 801%Q.
  below p 900%Q. below p 901%Q.
  settle_Qle; reflexivity.
Qed.

Lemma buckets_of_record (w : bool) (p : Q) :
  length (List.filter (fun r => w && inRange r p) priceRanges)
  = if w then (if boundaryGap p then 0%nat else 1%nat) else 0%nat.
Proof.
  destruct w; cbn [andb]; [apply buckets_of_price | reflexivity].
Qed.

Lemma buckets_cover a b (docs : list ProductTransaction) :
  (list_sum
     (List.map
        (fun r => length (List.filter
                    (fun t => inWindow a b t && inRange r (price t)) docs))
        priceRanges)
   + length (List.filter
               (fun t => inWindow a b t && boundaryGap (price t)) docs)
   = length (List.filter (inWindow a b) docs))%nat.
Proof.
  rewrite (sum_counts (fun r t => inWindow a b t && inRange r (price t))).
  induction docs as [|t docs IH]; [reflexivity|].
  cbn [List.map List.filter]. rewrite list_sum_cons, buckets_of_record.
  destruct (inWindow a b t); cbn [andb];
    [destruct (boundaryGap (price t))|]; cbn [length]; lia.
Qed.

Section WithHost.
Variable host : Host.

Lemma window_price_matches a b lo hi t :
  matches (regex_test host)
          [ field (dateOfSale_range (Some a) (Some b));
            field (price_range lo hi) ] t
  = inWindow a b t
    && inRange {| range := ""; min := lo; max := hi |} (price t).
Proof. unfold matches, inWindow, inRange. cbn. rewrite andb_true_r. reflexivity. Qed.

(** The response on a healthy store, for a valid window: the buckets in
    the order of their declaration, each with its count. *)
Lemma api_bar_chart_healthy q s a b :
  healthy s ->
  monthWindow host (month q) = (Some a, Some b) ->
  api_bar_chart host q s
  = (Json200
       (List.map
          (fun r =>
             {| bar_range := range r;
                bar_count :=
                  length (List.filter
                            (fun t => inWindow a b t && inRange r (price t))
                            (collection s)) |})
          priceRanges), s).
Proof.
  intros Hs Hw. unfold api_bar_chart. rewrite Hw. unfold try_catch.
  erewrite Promise_all_healthy; [reflexivity|].
  intros r. unfold mbind, Async_bind, mret, Async_ret.
  rewrite countDocuments_healthy by (assumption || reflexivity).
  do 3 f_equal. f_equal. apply List.filter_ext. intros t.
  rewrite window_price_matches. reflexivity.
Qed.

End WithHost.

(** C2 (amended).  For every valid month window and every contents of a
    healthy store, the Price Histogram returns the ten buckets in the
    order of their declaration; the sum of the ten counts plus the number
    of records of the window whose price lies in a boundary gap (negative,
    or from a multiple of 100 between 100 and 900 up to, but not
    including, the next integer) is the number of records of the window;
    and every price lies in exactly one bucket, or in a boundary gap and
    then in no bucket. *)
Theorem api_bar_chart_partition (host : Host) q s a b :
  healthy s ->
  monthWindow host (month q) = (Some a, Some b) ->
  exists bars,
    fst (api_bar_chart host q s) = Json200 bars
    /\ List.map bar_range bars = List.map range priceRanges
    /\ List.map bar_count bars
       = List.map
           (fun r => length (List.filter
                       (fun t => inWindow a b t && inRange r (price t))
                       (collection s)))
           priceRanges
    /\ (list_sum (List.map bar_count bars)
        + length (List.filter
                    (fun t => inWindow a b t && boundaryGap (price t))
                    (collection s))
        = length (List.filter (inWindow a b) (collection s)))%nat
    /\ (forall p,
          length (List.filter (fun r => inRange r p) priceRanges)
          = if boundaryGap p then 0%nat else 1%nat).
Proof.
  intros Hs Hw. rewrite (api_bar_chart_healthy host q s a b Hs Hw).
  eexists. split; [reflexivity|].
  rewrite !List.map_map. cbn [bar_range bar_count].
  repeat split.
  - apply buckets_cover.
  - apply buckets_of_price.
Qed.

Lemma api_bar_chart_partition_witness :
  exists bars,
    fst (api_bar_chart utc_host (monthQuery "2022-03") elevenInMarch)
    = Json200 bars
    /\ List.map bar_count bars = [9; 1; 0; 0; 0; 0; 0; 0; 0; 0]%nat.
Proof.
  destruct (api_bar_chart_partition utc_host (monthQuery "2022-03")
              elevenInMarch 1646092800000 1648771200000 eq_refl eq_refl)
    as (bars & Hbars & _ & Hcounts & _).
  exists bars. split; [exact Hbars|].
  rewrite Hcounts. vm_compute. reflexivity.
Defined.

(** The claim of C2 fails: a record of the window priced 200 is counted in
    no bucket, and its price is not 100. *)
Lemma price_200_is_in_no_bucket :
  (list_sum (List.map bar_count
       (barsOf (fst (api_bar_chart utc_host (monthQuery "2022-03")
                                   oneAt200))))
   + length (List.filter
               (fun t => inWindow 1646092800000 1648771200000 t
                         && Qeq_bool (price t) 100)
               (collection oneAt200))
   <> length (List.filter (inWindow 1646092800000 1648771200000)
                          (collection oneAt200)))%nat.
Proof. vm_compute. discriminate. Qed.

End HistogramFacts.

(* ================================================================== *)
(** ** Category distribution *)
(* ================================================================== *)

Module CategoryFacts.
Import ESDate JSNumber Mongo MongoFacts Server StatisticsFacts.

Lemma groupCount_acc (l : list ProductTransaction) (m : gmap string nat)
    (c : string) :
  fold_left
    (fun m t => <[category t := S (default 0%nat (m !! category t))]> m) l m
  !! c
  = let k := length (List.filter (fun t => String.eqb (category t) c) l) in
    if (k =? 0)%nat then m !! c else Some (default 0%nat (m !! c) + k)%nat.
Proof.
  revert m. induction l as [|t l IH]; intros m; [reflexivity|].
  cbn [fold_left List.filter]. rewrite IH. cbv zeta.
  destruct (String.eqb_spec (category t) c) as [-> | Hne].
  - cbn [length]. rewrite lookup_insert_eq. cbn [default from_option].
    unfold Datatypes.id.
    destruct (Nat.eqb_spec
                (length (List.filter (fun t0 => String.eqb (category t0) c) l))
                0) as [-> | Hk].
    + cbn. f_equal. lia.
    + cbn. f_equal. lia.
  - rewrite lookup_insert_ne by assumption. reflexivity.
Qed.

Lemma groupCount_lookup (l : list ProductTransaction) (c : string) (n : nat) :
  groupCount l !! c = Some n
  <-> n = length (List.filter (fun t => String.eqb (category t) c) l)
      /\ (0 < n)%nat.
Proof.
  unfold groupCount. rewrite groupCount_acc. cbv zeta.
  rewrite lookup_empty. cbn [default from_option].
  destruct (Nat.eqb_spec
              (length (List.filter (fun t => String.eqb (category t) c) l)) 0)
    as [E | E]; split.
  - discriminate.
  - intros [-> H]. lia.
  - intros [= <-]. unfold Datatypes.id. lia.
  - intros [-> _]. reflexivity.
Qed.

Section WithHost.
Variable host : Host.

Lemma filter_window a b docs :
  List.filter
    (matches (regex_test host) [ field (dateOfSale_range (Some a) (Some b)) ])
    docs
  = List.filter (inWindow a b) docs.
Proof.
  apply List.filter_ext. intros t. unfold matches, inWindow. cbn.
  apply andb_true_r.
Qed.

(** The response on a healthy store, for a valid window. *)
Lemma api_pie_chart_healthy q s a b :
  healthy s ->
  monthWindow host (month q) = (Some a, Some b) ->
  api_pie_chart host q s
  = (Json200
       (List.map (fun kv => {| slice_category := fst kv;
                               slice_count := snd kv |})
          (map_to_list
             (groupCount (List.filter (inWindow a b) (collection s))))), s).
Proof.
  intros Hs Hw. unfold api_pie_chart. rewrite Hw.
  unfold try_catch, mbind, Async_bind, mret, Async_ret,
    aggregate_count_by_category.
  rewrite command_healthy by assumption. rewrite filter_window.
  reflexivity.
Qed.

End WithHost.

(** C9.  For every valid month window and every contents of a healthy
    store, the Category Distribution returns exactly one entry per
    category that occurs among the records of the window, with the number
    of records of the window that bear it; a category without a record in
    the window has no entry, and no entry has a count of zero. *)
Theorem api_pie_chart_groups (host : Host) q s a b :
  healthy s ->
  monthWindow host (month q) = (Some a, Some b) ->
  exists slices,
    fst (api_pie_chart host q s) = Json200 slices
    /\ NoDup (List.map slice_category slices)
    /\ (forall c n,
          In {| slice_category := c; slice_count := n |} slices
          <-> n = countCategory a b c (collection s) /\ (0 < n)%nat)
    /\ (forall c,
          In c (List.map slice_category slices)
          <-> exists t, In t (collection s) /\ inWindow a b t = true
                        /\ category t = c).
Proof.
  intros Hs Hw. rewrite (api_pie_chart_healthy host q s a b Hs Hw).
  eexists. split; [reflexivity|].
  set (m := groupCount (List.filter (inWindow a b) (collection s))).
  assert (Hin : forall c n,
            In {| slice_category := c; slice_count := n |}
               (List.map (fun kv => {| slice_category := fst kv;
                                       slice_count := snd kv |})
                         (map_to_list m))
            <-> n = countCategory a b c (collection s) /\ (0 < n)%nat).
  { intros c n. unfold countCategory.
    rewrite <- length_filter_filter, <- groupCount_lookup. fold m.
    rewrite <- elem_of_map_to_list, list_elem_of_In, List.in_map_iff. split.
    - intros ([c' n'] & [= -> ->] & H). exact H.
    - intros H. exists (c, n). split; [reflexivity | exact H]. }
  split; [|split].
  - rewrite List.map_map. cbn [slice_category].
    pose proof (NoDup_fst_map_to_list m) as Hnd.
    exact Hnd.
  - exact Hin.
  - intros c. split.
    + intros H. apply List.in_map_iff in H as ([c' n] & E & H).
      cbn in E. subst c'. apply Hin in H as [-> Hpos].
      unfold countCategory in Hpos.
      destruct (List.filter
                  (fun t => inWindow a b t && String.eqb (category t) c)
                  (collection s)) as [|t l] eqn:El; [cbn in Hpos; lia|].
      assert (Ht : In t (List.filter
                  (fun t => inWindow a b t && String.eqb (category t) c)
                  (collection s))) by (rewrite El; left; reflexivity).
      apply List.filter_In in Ht as [Hdoc Hp].
      apply andb_true_iff in Hp as [Hwin Hcat].
      exists t. repeat split; try assumption.
      apply String.eqb_eq. exact Hcat.
    + intros (t & Hdoc & Hwin & Hcat).
      apply List.in_map_iff.
      exists {| slice_category := c;
                slice_count := countCategory a b c (collection s) |}.
      split; [reflexivity|]. apply Hin. split; [reflexivity|].
      unfold countCategory.
      assert (Ht : In t (List.filter
                  (fun t => inWindow a b t && String.eqb (category t) c)
                  (collection s))).
      { apply List.filter_In. split; [assumption|].
        rewrite Hwin. cbn. apply String.eqb_eq. exact Hcat. }
      destruct (List.filter
                  (fun t => inWindow a b t && String.eqb (category t) c)
                  (collection s)); [destruct Ht | cbn; lia].
Qed.

Lemma api_pie_chart_groups_witness :
  exists slices,
    fst (api_pie_chart utc_host (monthQuery "2022-03") elevenInMarch)
    = Json200 slices
    /\ In {| slice_category := "bags"; slice_count := 5 |} slices
    /\ In {| slice_category := "outdoor"; slice_count := 6 |} slices.
Proof.
  destruct (api_pie_chart_groups utc_host (monthQuery "2022-03")
              elevenInMarch 1646092800000 1648771200000 eq_refl eq_refl)
    as (slices & Hslices & _ & Hin & _).
  exists slices. split; [exact Hslices|].
  split; apply Hin; split; (reflexivity || (cbv; lia)).
Defined.

End CategoryFacts.

(* ================================================================== *)
(** ** Combined report *)
(* ================================================================== *)

Module CombinedFacts.
Import ESDate JSNumber Mongo MongoFacts Server.
Import TransactionFacts StatisticsFacts.

Lemma try_catch_responds {A} (c : Async A) msg s :
  fst (try_catch c msg s) <> NoResponse.
Proof. unfold try_catch. destruct (c s) as [[?|?] ?]; discriminate. Qed.

Lemma try_catch_error {A} (c : Async A) msg s m :
  fst (try_catch c msg s) = Text500 m -> m = msg.
Proof.
  unfold try_catch. destruct (c s) as [[?|?] ?]; cbn; congruence.
Qed.

Section WithHost.
Variable host : Host.

Lemma api_statistics_responds q s : fst (api_statistics host q s) <> NoResponse.
Proof.
  unfold api_statistics. destruct (monthWindow host (month q)).
  apply try_catch_responds.
Qed.

Lemma api_bar_chart_responds q s : fst (api_bar_chart host q s) <> NoResponse.
Proof.
  unfold api_bar_chart. destruct (monthWindow host (month q)).
  apply try_catch_responds.
Qed.

Lemma api_pie_chart_responds q s : fst (api_pie_chart host q s) <> NoResponse.
Proof.
  unfold api_pie_chart. destruct (monthWindow host (month q)).
  apply try_catch_responds.
Qed.

Lemma api_transactions_responds q s :
  RegExp host (default ""%string (search q)) <> None ->
  fst (api_transactions host q s) <> NoResponse.
Proof.
  intros Hr. unfold api_transactions.
  destruct (RegExp host (default ""%string (search q))); [|contradiction].
  destruct (monthWindow host (month q)). apply try_catch_responds.
Qed.

(** A payload is made of the bodies of the four sub-calls, each made on
    the store as the one before left it. *)
Lemma api_combined_data_success q s c :
  fst (api_combined_data host q s) = Json200 c ->
  exists s1 s2 s3 s4,
    api_transactions host (monthQuery (month q)) s
    = (Json200 (transactions c), s1)
    /\ api_statistics host (monthQuery (month q)) s1
       = (Json200 (statistics c), s2)
    /\ api_bar_chart host (monthQuery (month q)) s2
       = (Json200 (barChart c), s3)
    /\ api_pie_chart host (monthQuery (month q)) s3
       = (Json200 (pieChart c), s4).
Proof.
  unfold api_combined_data, axios_get_then.
  change {| month := month q; search := None; page := None; perPage := None |}
    with (monthQuery (month q)).
  destruct (api_transactions host _ s) as [[t| |] s1] eqn:E1;
    cbn [fst]; try discriminate.
  destruct (api_statistics host _ s1) as [[st| |] s2] eqn:E2;
    cbn [fst]; try discriminate.
  destruct (api_bar_chart host _ s2) as [[bars| |] s3] eqn:E3;
    cbn [fst]; try discriminate.
  destruct (api_pie_chart host _ s3) as [[slices| |] s4] eqn:E4;
    cbn [fst]; try discriminate.
  intros [= <-]. exists s1, s2, s3, s4.
  cbn [transactions statistics barChart pieChart]. auto.
Qed.

(** One of the sub-calls has failed: every clause follows from the
    equations of the calls made so far. *)
Ltac sub_call_failed :=
  cbn [fst]; repeat split;
  try (intros; congruence);
  try (right; reflexivity);
  try (intros (x1 & x2 & x3 & x4 & H1 & H2 & H3 & H4); congruence).

(** C8.  For every month (on a host whose empty search compiles): the
    combined call succeeds exactly when its four sub-calls, made one after
    the other, all succeed, and its payload then consists of their four
    bodies; if any of them fails, the combined call answers with its own
    error result, and never with a payload. *)
Theorem api_combined_data_all_or_nothing q s :
  RegExp host "" <> None ->
  let params := monthQuery (month q) in
  (forall c,
     fst (api_combined_data host q s) = Json200 c
     <-> exists s1 s2 s3 s4,
           api_transactions host params s = (Json200 (transactions c), s1)
           /\ api_statistics host params s1 = (Json200 (statistics c), s2)
           /\ api_bar_chart host params s2 = (Json200 (barChart c), s3)
           /\ api_pie_chart host params s3 = (Json200 (pieChart c), s4))
  /\ ((exists c, fst (api_combined_data host q s) = Json200 c)
      \/ fst (api_combined_data host q s)
         = Text500 "Error fetching combined data"%string)
  /\ (forall m s1,
        api_transactions host params s = (Text500 m, s1) ->
        fst (api_combined_data host q s)
        = Text500 "Error fetching combined data"%string)
  /\ (forall t s1 m s2,
        api_transactions host params s = (Json200 t, s1) ->
        api_statistics host params s1 = (Text500 m, s2) ->
        fst (api_combined_data host q s)
        = Text500 "Error fetching combined data"%string)
  /\ (forall t s1 st s2 m s3,
        api_transactions host params s = (Json200 t, s1) ->
        api_statistics host params s1 = (Json200 st, s2) ->
        api_bar_chart host params s2 = (Text500 m, s3) ->
        fst (api_combined_data host q s)
        = Text500 "Error fetching combined data"%string)
  /\ (forall t s1 st s2 bars s3 m s4,
        api_transactions host params s = (Json200 t, s1) ->
        api_statistics host params s1 = (Json200 st, s2) ->
        api_bar_chart host params s2 = (Json200 bars, s3) ->
        api_pie_chart host params s3 = (Text500 m, s4) ->
        fst (api_combined_data host q s)
        = Text500 "Error fetching combined data"%string).
Proof.
  intros Hr params.
  unfold api_combined_data, axios_get_then.
  change {| month := month q; search := None; page := None; perPage := None |}
    with params.
  pose proof (api_transactions_responds params s Hr) as R1.
  destruct (api_transactions host params s) as [[t| |] s1] eqn:E1;
    [| |contradiction R1; reflexivity]; [|sub_call_failed].
  pose proof (api_statistics_responds params s1) as R2.
  destruct (api_statistics host params s1) as [[st| |] s2] eqn:E2;
    [| |contradiction R2; reflexivity]; [|sub_call_failed].
  pose proof (api_bar_chart_responds params s2) as R3.
  destruct (api_bar_chart host params s2) as [[bars| |] s3] eqn:E3;
    [| |contradiction R3; reflexivity]; [|sub_call_failed].
  pose proof (api_pie_chart_responds params s3) as R4.
  destruct (api_pie_chart host params s3) as [[slices| |] s4] eqn:E4;
    [| |contradiction R4; reflexivity]; [|sub_call_failed].
  cbn [fst]. repeat split; try (intros; congruence).
  - intros [= <-]. cbn. eauto 10.
  - intros (x1 & x2 & x3 & x4 & H1 & H2 & H3 & H4).
    injection H1 as H1 <-. rewrite E2 in H2. injection H2 as H2 <-.
    rewrite E3 in H3. injection H3 as H3 <-.
    rewrite E4 in H4. injection H4 as H4 _.
    destruct c; cbn in *; congruence.
  - left. eexists. reflexivity.
Qed.

(** *** What a successful response says *)

Lemma api_transactions_collection q s :
  collection (snd (api_transactions host q s)) = collection s.
Proof.
  unfold api_transactions.
  destruct (RegExp host (default ""%string (search q))); [|reflexivity].
  destruct (monthWindow host (month q)) as [startDate endDate].
  unfold try_catch, mbind, Async_bind, mret, Async_ret.
  match goal with |- context [find ?t ?f ?sk ?lim s] =>
    pose proof (find_collection t f sk lim s) as Hf;
    destruct (find t f sk lim s) as [[txs|e] s1] end; cbn [snd] in *;
    [|assumption].
  match goal with |- context [countDocuments ?t ?f s1] =>
    pose proof (countDocuments_collection t f s1) as Hc;
    destruct (countDocuments t f s1) as [[n|e] s2] end; cbn [snd] in *;
    congruence.
Qed.

Lemma api_transactions_total q s txs total s' :
  api_transactions host q s = (Json200 (txs, total), s') ->
  exists r a b,
    RegExp host (default ""%string (search q)) = Some r
    /\ monthWindow host (month q) = (Some a, Some b)
    /\ total = length (List.filter
                  (matches (regex_test host)
                     (transactionsFilter host (Some a) (Some b) r
                        (default ""%string (search q))))
                  (collection s)).
Proof.
  unfold api_transactions.
  destruct (RegExp host (default ""%string (search q))) as [r|];
    [|discriminate].
  destruct (monthWindow host (month q)) as [startDate endDate].
  unfold try_catch, mbind, Async_bind, mret, Async_ret.
  match goal with |- context [find ?t ?f ?sk ?lim s] =>
    pose proof (find_collection t f sk lim s) as Hf;
    destruct (find t f sk lim s) as [[found|e] s1] end; cbn [snd] in *;
    [|discriminate].
  match goal with |- context [countDocuments ?t ?f s1] =>
    destruct (countDocuments t f s1) as [[n|e] s2] eqn:Ec end;
    [|discriminate].
  intros [= <- <- <-].
  apply countDocuments_fulfilled in Ec as (Hcast & -> & _).
  apply transactionsFilter_cast in Hcast as (a & b & -> & ->).
  exists r, a, b. rewrite Hf. auto.
Qed.

Lemma api_statistics_counts q s st s' :
  api_statistics host q s = (Json200 st, s') ->
  exists a b,
    monthWindow host (month q) = (Some a, Some b)
    /\ totalSoldItems st
       = length (List.filter
                   (fun t => inWindow a b t && Bool.eqb (sold t) true)
                   (collection s))
    /\ totalNotSoldItems st
       = length (List.filter
                   (fun t => inWindow a b t && Bool.eqb (sold t) false)
                   (collection s)).
Proof.
  unfold api_statistics.
  destruct (monthWindow host (month q)) as [startDate endDate].
  unfold try_catch, mbind, Async_bind, mret, Async_ret.
  match goal with |- context [aggregate_sum_price ?t ?sm ?f s] =>
    pose proof (command_collection
      (fun docs => match List.filter (matches t f) docs with
                   | [] => Fulfilled []
                   | l => Fulfilled [sumPrice sm l]
                   end) s) as Ha;
    fold (aggregate_sum_price t sm f) in Ha;
    destruct (aggregate_sum_price t sm f s) as [[amount|e] s1] end;
    cbn [snd] in *; [|discriminate].
  match goal with |- context [countDocuments ?t ?f s1] =>
    destruct (countDocuments t f s1) as [[n1|e] s2] eqn:E1 end;
    [|discriminate].
  match goal with |- context [countDocuments ?t ?f s2] =>
    destruct (countDocuments t f s2) as [[n2|e] s3] eqn:E2 end;
    [|discriminate].
  intros [= <- <-]. cbn [totalSoldItems totalNotSoldItems].
  apply countDocuments_fulfilled in E1 as (Hcast & -> & Hs2).
  apply countDocuments_fulfilled in E2 as (_ & -> & _).
  destruct startDate as [a|], endDate as [b|]; try discriminate Hcast.
  exists a, b. rewrite Hs2, Ha, !filter_window_sold. auto.
Qed.

(** C7.  For every month and every contents of the store (on a host whose
    empty regular expression matches every string): whenever the Combined
    Report succeeds, [totalSoldItems + totalNotSoldItems] of its
    statistics is the total that List Transactions reports for the same
    month, without a search and with the default pagination, over the same
    contents. *)
Theorem api_combined_data_consistent q s s' r0 c txs total :
  RegExp host "" = Some r0 ->
  (forall x, regex_test host r0 x = true) ->
  collection s' = collection s ->
  fst (api_combined_data host q s) = Json200 c ->
  fst (api_transactions host (monthQuery (month q)) s') = Json200 (txs, total) ->
  (totalSoldItems (statistics c) + totalNotSoldItems (statistics c))%nat
  = total.
Proof.
  intros Hr Hall Hdocs Hc Ht.
  apply api_combined_data_success in Hc
    as (s1 & s2 & s3 & s4 & H1 & H2 & _).
  assert (Hs1 : collection s1 = collection s).
  { rewrite <- (api_transactions_collection (monthQuery (month q)) s), H1.
    reflexivity. }
  apply api_statistics_counts in H2 as (a & b & Hw & -> & ->).
  destruct (api_transactions host (monthQuery (month q)) s') as [rsp s''] eqn:E.
  cbn [fst] in Ht. subst rsp.
  apply api_transactions_total in E as (r & a' & b' & Hr' & Hw' & ->).
  cbn [monthQuery search month default from_option] in Hr', Hw', Hw |- *.
  rewrite Hr in Hr'. injection Hr' as <-.
  rewrite Hw in Hw'. injection Hw' as <- <-.
  rewrite Hs1, Hdocs.
  rewrite (List.filter_ext _ (inWindow a b)
             (fun t => empty_search_matches host r0 a b t Hall)).
  rewrite (length_filter_split (inWindow a b) sold).
  f_equal; f_equal; apply List.filter_ext; intros t;
    destruct (sold t); reflexivity.
Qed.

End WithHost.

Lemma literal_test_empty (x : string) : literal_test [] x = true.
Proof.
  unfold literal_test. destruct (list_ascii_of_string x); reflexivity.
Qed.

Lemma api_combined_data_all_or_nothing_witness :
  fst (api_combined_data utc_host (monthQuery "2022-03") thirdCommandFails)
  = Text500 "Error fetching combined data"%string.
Proof.
  assert (Hr : RegExp utc_host "" <> None) by discriminate.
  destruct (api_combined_data_all_or_nothing utc_host (monthQuery "2022-03")
              thirdCommandFails Hr)
    as (_ & _ & _ & Hstatistics & _).
  apply (Hstatistics
           (firstn 10 (collection elevenInMarch), 11%nat)
           {| collection := collection elevenInMarch; faults := [true] |}
           "Error fetching statistics"%string
           {| collection := collection elevenInMarch; faults := [] |}).
  - vm_compute. reflexivity.
  - vm_compute. reflexivity.
Defined.

Lemma api_combined_data_consistent_witness :
  exists c,
    fst (api_combined_data utc_host (monthQuery "2022-03") elevenInMarch)
    = Json200 c
    /\ (totalSoldItems (statistics c) + totalNotSoldItems (statistics c))%nat
       = 11%nat.
Proof.
  destruct (fst (api_combined_data utc_host (monthQuery "2022-03")
                   elevenInMarch)) as [c| |] eqn:E;
    [|vm_compute in E; discriminate E..].
  exists c. split; [reflexivity|].
  apply (api_combined_data_consistent utc_host (monthQuery "2022-03")
           elevenInMarch elevenInMarch [] c
           (firstn 10 (collection elevenInMarch)) 11%nat
           eq_refl literal_test_empty eq_refl E).
  vm_compute. reflexivity.
Defined.

End CombinedFacts.

(* ================================================================== *)
(** ** A month that is not a date *)
(* ================================================================== *)

Module InvalidMonthFacts.
Import ESDate JSNumber Mongo MongoFacts Server.

Lemma Promise_all_uncastable {A B} (f : A -> Async B) x l s :
  (forall y, f y s = (Rejected CastError, s)) ->
  Promise_all (List.map f (x :: l)) s = (Rejected CastError, s).
Proof.
  intros Hf. cbn [List.map Promise_all]. rewrite Hf.
  assert (Hs : snd (Promise_all (List.map f l) s) = s).
  { induction l as [|y l IH]; [reflexivity|].
    cbn [List.map Promise_all]. rewrite Hf.
    destruct (Promise_all (List.map f l) s). exact IH. }
  destruct (Promise_all (List.map f l) s). cbn in Hs. subst. reflexivity.
Qed.

Section WithHost.
Variable host : Host.

Lemma monthWindow_invalid m :
  parse (parse_other host) (m ++ "-01") = None ->
  monthWindow host m = (None, None).
Proof. intros H. unfold monthWindow. rewrite H. reflexivity. Qed.

(** C10 (amended).  For every month selector whose date does not parse,
    [start] and [end] are both invalid dates.  The store layer refuses an
    invalid date in a filter, so List Transactions (for a search that
    compiles), Statistics and the Price Histogram do not return an empty
    result: each ends in its [catch] block and answers with its error
    result.  None of them crashes, and List Transactions does not touch
    the store. *)
Theorem unparsable_month_is_an_error q s :
  parse (parse_other host) (month q ++ "-01") = None ->
  monthWindow host (month q) = (None, None)
  /\ (forall r, RegExp host (default ""%string (search q)) = Some r ->
        api_transactions host q s
        = (Text500 "Error fetching transactions"%string, s))
  /\ fst (api_statistics host q s)
     = Text500 "Error fetching statistics"%string
  /\ fst (api_bar_chart host q s)
     = Text500 "Error fetching bar chart data"%string.
Proof.
  intros H. pose proof (monthWindow_invalid (month q) H) as Hw.
  split; [exact Hw|]. split; [|split].
  - intros r Hr. unfold api_transactions. rewrite Hr, Hw.
    unfold try_catch, mbind, Async_bind.
    rewrite find_uncastable by reflexivity. reflexivity.
  - unfold api_statistics. rewrite Hw.
    unfold try_catch, mbind, Async_bind.
    destruct (aggregate_sum_price _ _ _ s) as [[amount|e] s1]; [|reflexivity].
    rewrite countDocuments_uncastable by reflexivity. reflexivity.
  - unfold api_bar_chart. rewrite Hw. unfold try_catch, priceRanges.
    rewrite Promise_all_uncastable; [reflexivity|].
    intros r. unfold mbind, Async_bind.
    rewrite countDocuments_uncastable by reflexivity. reflexivity.
Qed.

(** The aggregation of the Category Distribution is not cast: the invalid
    dates go out as the epoch, the window between them is empty, and the
    answer is an empty list. *)
Lemma api_pie_chart_unparsable_month q s :
  healthy s ->
  parse (parse_other host) (month q ++ "-01") = None ->
  api_pie_chart host q s = (Json200 [], s).
Proof.
  intros Hs H. unfold api_pie_chart.
  rewrite (monthWindow_invalid (month q) H).
  unfold try_catch, mbind, Async_bind, mret, Async_ret,
    aggregate_count_by_category.
  rewrite command_healthy by assumption.
  replace (List.filter _ (collection s)) with (@nil ProductTransaction);
    [reflexivity|].
  symmetry. induction (collection s) as [|t l IH]; [reflexivity|].
  cbn [List.filter]. rewrite IH.
  unfold matches. cbn. 
  destruct (Z.leb_spec 0 (dateOfSale t)), (Z.ltb_spec (dateOfSale t) 0);
    try reflexivity; lia.
Qed.

End WithHost.

Lemma unparsable_month_is_an_error_witness :
  api_transactions utc_host (monthQuery "2022-13") elevenInMarch
  = (Text500 "Error fetching transactions"%string, elevenInMarch).
Proof.
  destruct (unparsable_month_is_an_error utc_host (monthQuery "2022-13")
              elevenInMarch eq_refl) as (_ & Htransactions & _).
  apply (Htransactions []). reflexivity.
Defined.

(** The claim of C10 fails: month 13 is not a date, and List Transactions
    does not answer with an empty successful result. *)
Lemma unparsable_month_is_not_empty_success :
  parse no_other_dates "2022-13-01" = None
  /\ fst (api_transactions utc_host (monthQuery "2022-13") elevenInMarch)
     <> Json200 ([], 0%nat).
Proof. split; [reflexivity | vm_compute; discriminate]. Qed.

End InvalidMonthFacts.

(* ================================================================== *)
(** ** The length of the month window *)
(* ================================================================== *)

Module WindowLengthFacts.
Import ESDate ESDateFacts MonthLength Server WindowFacts.

Ltac month_cases m :=
  let C := fresh "C" in
  assert (C : In m [1; 2; 3; 4; 5; 6; 7; 8; 9; 10; 11; 12])
    by (cbn [In]; lia);
  cbn [In] in C;
  repeat destruct C as [<- | C]; [.. | destruct C].

(** Evaluate the closed scrutinees and tests a case split leaves behind. *)
Ltac eval_literals :=
  repeat match goal with
  | |- context [match ?k with Z0 => _ | Zpos _ => _ | Zneg _ => _ end] =>
      let v := eval vm_compute in k in
      lazymatch v with
      | Z0 => idtac | Zpos _ => idtac | Zneg _ => idtac
      end;
      progress change k with v; cbv iota
  | |- context [if ?c then _ else _] =>
      let v := eval vm_compute in c in
      lazymatch v with true => idtac | false => idtac end;
      progress change c with v; cbv iota
  end.

Lemma leap_indicator y :
  (if DaysInYear y =? 366 then 1 else 0) = DaysInYear y - 365.
Proof.
  pose proof (DaysInYear_bounds y).
  destruct (Z.eqb_spec (DaysInYear y) 366); lia.
Qed.

(** The first day of a month is the first day of the month before plus
    the length of that month. *)
Lemma DayFromYearMonth_next y m :
  1 <= m <= 12 ->
  DayFromYearMonth (fst (nextMonth y m)) (snd (nextMonth y m) - 1)
  = DayFromYearMonth y (m - 1) + daysInMonth y m.
Proof.
  intros Hm. unfold DayFromYearMonth, nextMonth, daysInMonth.
  rewrite !leap_indicator.
  pose proof (DayFromYear_succ y) as Hy.
  month_cases m; eval_literals; cbn [fst snd]; eval_literals; lia.
Qed.

Lemma DayFromYearMonth_previous y m :
  1 <= m <= 12 ->
  DayFromYearMonth y (m - 1)
  = DayFromYearMonth (fst (previousMonth y m)) (snd (previousMonth y m) - 1)
    + daysInMonth (fst (previousMonth y m)) (snd (previousMonth y m)).
Proof.
  intros Hm. unfold DayFromYearMonth, previousMonth, daysInMonth.
  rewrite !leap_indicator.
  pose proof (DayFromYear_succ (y - 1)) as Hy.
  replace (y - 1 + 1) with y in Hy by lia.
  month_cases m; eval_literals; cbn [fst snd]; eval_literals; lia.
Qed.

Lemma daysInMonth_range y m : 28 <= daysInMonth y m <= 31.
Proof.
  unfold daysInMonth. pose proof (DaysInYear_bounds y).
  destruct (m =? 2); [lia|].
  destruct ((m =? 4) || (m =? 6) || (m =? 9) || (m =? 11)); lia.
Qed.

(** The calendar fields of an instant of day [k + 1] of a month. *)
Lemma month_day_fields y mn k w :
  0 <= mn <= 11 -> 0 <= k < daysInMonth y (mn + 1) -> 0 <= w < msPerDay ->
  let t := (DayFromYearMonth y mn + k) * msPerDay + w in
  YearFromTime t = y /\ MonthFromTime t = mn /\ DateFromTime t = k + 1
  /\ TimeWithinDay t = w.
Proof.
  intros Hmn Hk Hw t.
  set (l := DaysInYear y - 365).
  assert (Hl : 0 <= l <= 1) by (pose proof (DaysInYear_bounds y); lia).
  assert (HD : Day t = DayFromYearMonth y mn + k).
  { unfold Day, t, msPerDay in *. div_lia. }
  assert (HT : TimeWithinDay t = w).
  { unfold TimeWithinDay, t, msPerDay in *. div_lia. }
  clearbody t.
  assert (Hoff : exists off,
             DayFromYearMonth y mn = DayFromYear y + off
             /\ 0 <= off /\ off + k <= 364 + l
             /\ off = match mn with
                      | 0 => 0 | 1 => 31 | 2 => 59 + l | 3 => 90 + l
                      | 4 => 120 + l | 5 => 151 + l | 6 => 181 + l
                      | 7 => 212 + l | 8 => 243 + l | 9 => 273 + l
                      | 10 => 304 + l | _ => 334 + l
                      end
             /\ off + k < match mn with
                          | 0 => 31 | 1 => 59 + l | 2 => 90 + l | 3 => 120 + l
                          | 4 => 151 + l | 5 => 181 + l | 6 => 212 + l
                          | 7 => 243 + l | 8 => 273 + l | 9 => 304 + l
                          | 10 => 334 + l | _ => 365 + l
                          end).
  { unfold DayFromYearMonth. rewrite leap_indicator. fold l.
    eexists. split; [reflexivity|].
    unfold daysInMonth in Hk. fold l in Hk.
    assert (C : In mn [0; 1; 2; 3; 4; 5; 6; 7; 8; 9; 10; 11])
      by (cbn [In]; lia).
    cbn [In] in C.
    repeat destruct C as [<- | C]; [.. | destruct C];
      revert Hk; eval_literals; intros Hk;
      replace (DaysInYear y - 337) with (28 + l) in Hk by (unfold l; lia);
      repeat split; lia. }
  destruct Hoff as (off & Hoff & Hoff0 & Hoff1 & Hval & Hnext).
  assert (HY : YearFromTime t = y).
  { unfold YearFromTime. rewrite HD. apply YearFromDay_unique.
    rewrite DayFromYear_succ. unfold l in *. lia. }
  assert (HL : InLeapYear t = l).
  { unfold InLeapYear. rewrite HY. apply leap_indicator. }
  assert (HW : DayWithinYear t = off + k).
  { unfold DayWithinYear. rewrite HD, HY. lia. }
  assert (HM : MonthFromTime t = mn).
  { unfold MonthFromTime. rewrite HW, HL. cbv zeta.
    assert (C : In mn [0; 1; 2; 3; 4; 5; 6; 7; 8; 9; 10; 11])
      by (cbn [In]; lia).
    cbn [In] in C.
    repeat destruct C as [<- | C]; [.. | destruct C];
      cbv iota in Hval, Hnext;
      repeat match goal with |- context [ (?a <? ?b) ] =>
        destruct (Z.ltb_spec a b); try lia end; reflexivity. }
  repeat split; try assumption.
  unfold DateFromTime. rewrite HM, HW, HL. clear HM. cbv zeta.
  assert (C : In mn [0; 1; 2; 3; 4; 5; 6; 7; 8; 9; 10; 11])
    by (cbn [In]; lia).
  cbn [In] in C.
  repeat destruct C as [<- | C]; [.. | destruct C];
    cbv iota in Hval |- *; lia.
Qed.

Section WithHost.
Variable host : Host.

(** The month window on a host west of UTC. *)
Lemma monthWindow_west y m :
  - msPerDay <= LocalTZA host < 0 ->
  0 <= y <= 9999 -> 1 <= m <= 12 ->
  monthWindow host (yearMonth y m)
  = (Some (firstInstant y m),
     Some (firstInstant y m
           + msPerDay * daysInMonth (fst (previousMonth y m))
                                    (snd (previousMonth y m)))).
Proof.
  intros Htz Hy Hm. unfold monthWindow.
  destruct (parse_yearMonth (parse_other host) y m Hy Hm) as [-> Hfirst].
  f_equal. unfold getMonth, setMonth, option_map, LocalTime.
  set (py := fst (previousMonth y m)). set (pm := snd (previousMonth y m)).
  assert (Hpm : 1 <= pm <= 12).
  { unfold pm, previousMonth. destruct (Z.eqb_spec m 1); cbn [snd]; lia. }
  pose proof (daysInMonth_range py pm) as Hd.
  pose proof (DayFromYearMonth_previous y m Hm) as Hprev.
  fold py pm in Hprev.
  assert (Ht : firstInstant y m + LocalTZA host
               = (DayFromYearMonth py (pm - 1) + (daysInMonth py pm - 1))
                 * msPerDay + (msPerDay + LocalTZA host)).
  { rewrite Hfirst, Hprev. lia. }
  rewrite Ht.
  destruct (month_day_fields py (pm - 1) (daysInMonth py pm - 1)
              (msPerDay + LocalTZA host)) as (HY & HM & HD & HT);
    [lia | replace (pm - 1 + 1) with pm by lia; lia | lia |].
  cbv zeta in HY, HM, HD, HT. rewrite HY, HM, HD, HT.
  replace (daysInMonth py pm - 1 + 1) with (daysInMonth py pm) by lia.
  replace (pm - 1 + 1) with pm by lia.
  assert (HMD : MakeDay py pm (daysInMonth py pm)
                = DayFromYearMonth y (m - 1) + daysInMonth py pm - 1).
  { unfold MakeDay, py, pm, previousMonth.
    destruct (Z.eqb_spec m 1) as [-> | Hne]; cbn [fst snd].
    - change (12 / 12) with 1. change (12 mod 12) with 0.
      replace (y - 1 + 1) with y by lia. reflexivity.
    - rewrite Z.div_small, Z.mod_small by lia.
      replace (y + 0) with y by lia. reflexivity. }
  rewrite HMD.
  replace (UTC (LocalTZA host)
             (MakeDate (DayFromYearMonth y (m - 1) + daysInMonth py pm - 1)
                       (msPerDay + LocalTZA host)))
    with (firstInstant y m + msPerDay * daysInMonth py pm)
    by (unfold UTC, MakeDate; rewrite Hfirst; lia).
  unfold TimeClip.
  pose proof (days_from_civil_range y m ltac:(lia) Hm) as Hr.
  destruct (Z.leb_spec
              (Z.abs (firstInstant y m + msPerDay * daysInMonth py pm))
              8640000000000000); [reflexivity|].
  unfold firstInstant, msPerDay in *. lia.
Qed.

(** The month window on a host at or east of UTC: its length is the
    length of the month. *)
Lemma firstInstant_next y m :
  1 <= m <= 12 ->
  firstInstant (fst (nextMonth y m)) (snd (nextMonth y m))
  = firstInstant y m + msPerDay * daysInMonth y m.
Proof.
  intros Hm. unfold firstInstant.
  assert (Hm' : 1 <= snd (nextMonth y m) <= 12).
  { unfold nextMonth. destruct (Z.eqb_spec m 12); cbn [snd]; lia. }
  rewrite <- !DayFromYearMonth_civil by assumption.
  rewrite DayFromYearMonth_next by assumption. lia.
Qed.

(** X1.  On a host at or east of UTC (fixed offset below 24 h), the
    window of a well-formed selector is exactly as long as its month (28 to
    31 days), and it ends where the window of the following month begins:
    the windows tile the time line. *)
Theorem monthWindow_tiles y m :
  0 <= LocalTZA host < msPerDay ->
  0 <= y <= 9999 -> 1 <= m <= 12 ->
  exists a b,
    monthWindow host (yearMonth y m) = (Some a, Some b)
    /\ b - a = msPerDay * daysInMonth y m
    /\ 28 * msPerDay <= b - a <= 31 * msPerDay
    /\ (fst (nextMonth y m) <= 9999 ->
        fst (monthWindow host
               (yearMonth (fst (nextMonth y m)) (snd (nextMonth y m))))
        = Some b).
Proof.
  intros Htz Hy Hm.
  exists (firstInstant y m),
         (firstInstant (fst (nextMonth y m)) (snd (nextMonth y m))).
  rewrite (monthWindow_yearMonth host y m Htz Hy Hm).
  pose proof (daysInMonth_range y m) as Hd.
  rewrite firstInstant_next by assumption.
  split; [reflexivity|]. split; [lia|]. split; [unfold msPerDay; lia|].
  intros Hnext.
  destruct (nextMonth_range y m Hy Hm) as [Hy' Hm'].
  rewrite monthWindow_yearMonth by (assumption || lia).
  cbn [fst]. rewrite firstInstant_next by assumption. reflexivity.
Qed.

(** X2.  On a host west of UTC (fixed offset, less than 24 h), [start] is
    still the first instant (UTC) of the month, but [end] lies the length
    of the previous month after it: the window ends on the first instant
    of the following month exactly when the previous month is as long as
    the month itself. *)
Theorem monthWindow_west_of_UTC_length y m :
  - msPerDay <= LocalTZA host < 0 ->
  0 <= y <= 9999 -> 1 <= m <= 12 ->
  monthWindow host (yearMonth y m)
  = (Some (firstInstant y m),
     Some (firstInstant y m
           + msPerDay * daysInMonth (fst (previousMonth y m))
                                    (snd (previousMonth y m))))
  /\ (snd (monthWindow host (yearMonth y m))
      = Some (firstInstant (fst (nextMonth y m)) (snd (nextMonth y m)))
      <-> daysInMonth (fst (previousMonth y m)) (snd (previousMonth y m))
          = daysInMonth y m).
Proof.
  intros Htz Hy Hm. rewrite (monthWindow_west y m Htz Hy Hm).
  split; [reflexivity|]. cbn [snd].
  rewrite firstInstant_next by assumption. unfold msPerDay. split.
  - intros [= H]. lia.
  - intros ->. reflexivity.
Qed.

End WithHost.

Lemma monthWindow_tiles_witness :
  exists a b,
    monthWindow utc_host "2024-02" = (Some a, Some b)
    /\ b - a = 29 * msPerDay
    /\ fst (monthWindow utc_host "2024-03") = Some b.
Proof.
  destruct (monthWindow_tiles utc_host 2024 2) as (a & b & Hw & Hlen & _ & Hn);
    [unfold utc_host, host_at, LocalTZA, msPerDay; lia | lia | lia |].
  exists a, b. split; [exact Hw|]. split; [exact Hlen|].
  apply Hn. cbn. lia.
Defined.

Lemma monthWindow_west_of_UTC_length_witness :
  monthWindow (host_at (-18000000)) "2022-03"
  = (Some (firstInstant 2022 3), Some (firstInstant 2022 3 + msPerDay * 28)).
Proof.
  apply (monthWindow_west_of_UTC_length (host_at (-18000000)) 2022 3);
    unfold host_at, LocalTZA, msPerDay; lia.
Defined.

End WindowLengthFacts.

(* ================================================================== *)
(** ** Seeding *)
(* ================================================================== *)

Module SeedingFacts.
Import Mongo MongoFacts Seeding.

Lemma castAll_well_formed (docs : list ProductTransaction) :
  castAll (List.map Some docs) = Some docs.
Proof.
  induction docs as [|t docs IH]; [reflexivity|].
  cbn [List.map castAll]. rewrite IH. reflexivity.
Qed.



(** X4.  [/api/init] is not atomic.  When the download fails, no command
    is sent: the answer is status 500 and the store is as it was.  When
    the download succeeds and the delete goes through, but one of the
    downloaded documents cannot be cast to the schema, the answer is
    status 500 and the collection is left empty: the old records are gone
    and no new one is there. *)
Theorem api_init_failures download s :
  let failed := {| status := 500; text := "Error initializing database" |} in
  (download = None -> api_init download s = (failed, s))
  /\ (forall data,
        download = Some data ->
        existsb (fun b => b) (firstn 1 (faults s)) = false ->
        castAll data = None ->
        fst (api_init download s) = failed
        /\ collection (snd (api_init download s)) = []).
Proof.
  intros failed. split.
  - intros ->. reflexivity.
  - intros data -> Hdel Hcast. unfold api_init, mbind, Async_bind,
      deleteMany_all, insertMany, write_command, reject.
    rewrite Hcast. destruct s as [old fs]. cbn [faults collection] in *.
    destruct fs as [|[] fs]; cbn in Hdel; try discriminate;
      split; reflexivity.
Qed.

Lemma api_init_failures_witness :
  fst (api_init (Some [Some Server.freeSample; None]) Server.elevenInMarch)
  = {| status := 500; text := "Error initializing database" |}
  /\ collection
       (snd (api_init (Some [Some Server.freeSample; None])
                      Server.elevenInMarch))
     = [].
Proof.
  destruct (api_init_failures (Some [Some Server.freeSample; None])
              Server.elevenInMarch) as (_ & H).
  apply (H [Some Server.freeSample; None] eq_refl eq_refl eq_refl).
Defined.

End SeedingFacts.

(* ================================================================== *)
(** ** What every handler keeps to *)
(* ================================================================== *)

Module HandlerFacts.
Import ESDate JSNumber Mongo MongoFacts Server.
Import TransactionFacts StatisticsFacts HistogramFacts CategoryFacts CombinedFacts.

Lemma Promise_all_collection {A} (cs : list (Async A)) s :
  (forall c s0, In c cs -> collection (snd (c s0)) = collection s0) ->
  collection (snd (Promise_all cs s)) = collection s.
Proof.
  revert s. induction cs as [|c cs IH]; intros s Hcs; [reflexivity|].
  cbn [Promise_all].
  pose proof (Hcs c s (or_introl eq_refl)) as Hc.
  destruct (c s) as [r s1]. cbn [snd] in Hc.
  specialize (IH s1 (fun c0 s0 H => Hcs c0 s0 (or_intror H))).
  destruct (Promise_all cs s1) as [rs s2]. cbn [snd] in *. congruence.
Qed.

Lemma bind_collection {A B} (c : Async A) (k : A -> Async B) s :
  (forall s0, collection (snd (c s0)) = collection s0) ->
  (forall a s0, collection (snd (k a s0)) = collection s0) ->
  collection (snd ((c ≫= k) s)) = collection s.
Proof.
  intros Hc Hk. unfold mbind, Async_bind.
  specialize (Hc s). destruct (c s) as [[a|e] s1]; cbn [snd] in *.
  - rewrite Hk. exact Hc.
  - exact Hc.
Qed.

Lemma try_catch_collection {A} (c : Async A) msg s :
  (forall s0, collection (snd (c s0)) = collection s0) ->
  collection (snd (try_catch c msg s)) = collection s.
Proof.
  intros Hc. unfold try_catch. specialize (Hc s).
  destruct (c s) as [[a|e] s1]; exact Hc.
Qed.

Section WithHost.
Variable host : Host.

Lemma api_statistics_collection q s :
  collection (snd (api_statistics host q s)) = collection s.
Proof.
  unfold api_statistics. destruct (monthWindow host (month q)).
  apply try_catch_collection. intros s0.
  apply bind_collection; [intros; apply command_collection|]. intros ? ?.
  apply bind_collection; [intros; apply countDocuments_collection|]. intros ? ?.
  apply bind_collection; [intros; apply countDocuments_collection|]. intros ? ?.
  reflexivity.
Qed.

Lemma api_bar_chart_collection q s :
  collection (snd (api_bar_chart host q s)) = collection s.
Proof.
  unfold api_bar_chart. destruct (monthWindow host (month q)).
  apply try_catch_collection. intros s0.
  apply Promise_all_collection. intros c s1 Hc.
  apply List.in_map_iff in Hc as (r & <- & _).
  apply bind_collection; [intros; apply countDocuments_collection|].
  intros ? ?. reflexivity.
Qed.

Lemma api_pie_chart_collection q s :
  collection (snd (api_pie_chart host q s)) = collection s.
Proof.
  unfold api_pie_chart. destruct (monthWindow host (month q)).
  apply try_catch_collection. intros s0.
  apply bind_collection; [intros; apply command_collection|]. intros ? ?.
  reflexivity.
Qed.

Lemma axios_get_then_collection {A B} (h : Handler A) (k : A -> Handler B) s :
  (forall s0, collection (snd (h s0)) = collection s0) ->
  (forall a s0, collection (snd (k a s0)) = collection s0) ->
  collection (snd (axios_get_then h k s)) = collection s.
Proof.
  intros Hh Hk. unfold axios_get_then. specialize (Hh s).
  destruct (h s) as [[a| |] s1]; cbn [snd] in *; try exact Hh.
  rewrite Hk. exact Hh.
Qed.

(** X6.  The five query handlers only read: whatever they answer, and
    whatever the connection does, the collection afterwards is the
    collection before. *)
Theorem handlers_read_only q s :
  collection (snd (api_transactions host q s)) = collection s
  /\ collection (snd (api_statistics host q s)) = collection s
  /\ collection (snd (api_bar_chart host q s)) = collection s
  /\ collection (snd (api_pie_chart host q s)) = collection s
  /\ collection (snd (api_combined_data host q s)) = collection s.
Proof.
  split; [apply api_transactions_collection|].
  split; [apply api_statistics_collection|].
  split; [apply api_bar_chart_collection|].
  split; [apply api_pie_chart_collection|].
  unfold api_combined_data.
  apply axios_get_then_collection;
    [intros; apply api_transactions_collection|]. intros ? ?.
  apply axios_get_then_collection;
    [intros; apply api_statistics_collection|]. intros ? ?.
  apply axios_get_then_collection;
    [intros; apply api_bar_chart_collection|]. intros ? ?.
  apply axios_get_then_collection;
    [intros; apply api_pie_chart_collection|]. intros ? ?.
  reflexivity.
Qed.

(** X7.  A request to List Transactions goes unanswered exactly when its
    search text is not a regular expression, and then the store is not
    touched.  Every other request to the four query handlers is answered,
    either with status 200 or with status 500 and the fixed message of the
    handler. *)
Theorem handlers_answer q s :
  (fst (api_transactions host q s) = NoResponse
   <-> RegExp host (default ""%string (search q)) = None)
  /\ (RegExp host (default ""%string (search q)) = None ->
      snd (api_transactions host q s) = s)
  /\ (forall m, fst (api_transactions host q s) = Text500 m ->
                m = "Error fetching transactions"%string)
  /\ (fst (api_statistics host q s) <> NoResponse
      /\ forall m, fst (api_statistics host q s) = Text500 m ->
                   m = "Error fetching statistics"%string)
  /\ (fst (api_bar_chart host q s) <> NoResponse
      /\ forall m, fst (api_bar_chart host q s) = Text500 m ->
                   m = "Error fetching bar chart data"%string)
  /\ (fst (api_pie_chart host q s) <> NoResponse
      /\ forall m, fst (api_pie_chart host q s) = Text500 m ->
                   m = "Error fetching pie chart data"%string).
Proof.
  split; [|split; [|split; [|split; [|split]]]].
  - split.
    + intros H. destruct (RegExp host (default ""%string (search q))) eqn:E;
        [|reflexivity].
      exfalso. apply (api_transactions_responds host q s); [congruence|exact H].
    + intros H. unfold api_transactions. rewrite H. reflexivity.
  - intros H. unfold api_transactions. rewrite H. reflexivity.
  - unfold api_transactions.
    destruct (RegExp host (default ""%string (search q))); [|discriminate].
    destruct (monthWindow host (month q)). apply try_catch_error.
  - split; [apply api_statistics_responds|].
    unfold api_statistics. destruct (monthWindow host (month q)).
    apply try_catch_error.
  - split; [apply api_bar_chart_responds|].
    unfold api_bar_chart. destruct (monthWindow host (month q)).
    apply try_catch_error.
  - split; [apply api_pie_chart_responds|].
    unfold api_pie_chart. destruct (monthWindow host (month q)).
    apply try_catch_error.
Qed.

(** *** When the next command is rejected *)

Lemma command_fault {A} (run : list ProductTransaction -> Settled A) s rest :
  faults s = true :: rest -> fst (command run s) = Rejected MongoError.
Proof. intros H. unfold command. rewrite H. reflexivity. Qed.

Lemma countDocuments_fault (flt : Filter (regex host)) s rest :
  faults s = true :: rest ->
  exists e, fst (countDocuments (regex_test host) flt s) = Rejected e.
Proof.
  intros H. unfold countDocuments. destruct (cast flt).
  - exists MongoError. apply (command_fault _ s rest H).
  - exists CastError. reflexivity.
Qed.

Lemma find_fault (flt : Filter (regex host)) skip limit s rest :
  faults s = true :: rest ->
  exists e, fst (find (regex_test host) flt skip limit s) = Rejected e.
Proof.
  intros H. unfold find. destruct (cast flt).
  - exists MongoError. apply (command_fault _ s rest H).
  - exists CastError. reflexivity.
Qed.

Lemma try_catch_rejected {A} (c : Async A) msg s e :
  fst (c s) = Rejected e -> fst (try_catch c msg s) = Text500 msg.
Proof.
  unfold try_catch. destruct (c s) as [[a|e'] s1]; cbn; [discriminate|].
  reflexivity.
Qed.

Lemma bind_rejected {A B} (c : Async A) (k : A -> Async B) s e :
  fst (c s) = Rejected e -> fst ((c ≫= k) s) = Rejected e.
Proof.
  unfold mbind, Async_bind. destruct (c s) as [[a|e'] s1]; cbn [fst];
    [discriminate | intros [= ->]; reflexivity].
Qed.

Lemma Promise_all_head_rejected {A} (c : Async A) cs s e :
  fst (c s) = Rejected e -> fst (Promise_all (c :: cs) s) = Rejected e.
Proof.
  cbn [Promise_all]. destruct (c s) as [[a|e'] s1]; cbn; [discriminate|].
  intros [= ->]. destruct (Promise_all cs s1). reflexivity.
Qed.

(** X8.  When the next command a handler sends to the database is
    rejected (the promise it awaits rejects, after whatever the driver
    tried on its own), every operation answers with its error result
    (List Transactions and the Combined Report for a search that
    compiles): none of them answers with empty or partial data. *)
Theorem handlers_on_outage q s rest :
  faults s = true :: rest ->
  (RegExp host (default ""%string (search q)) <> None ->
   fst (api_transactions host q s)
   = Text500 "Error fetching transactions"%string)
  /\ fst (api_statistics host q s) = Text500 "Error fetching statistics"%string
  /\ fst (api_bar_chart host q s)
     = Text500 "Error fetching bar chart data"%string
  /\ fst (api_pie_chart host q s)
     = Text500 "Error fetching pie chart data"%string
  /\ (RegExp host "" <> None ->
      fst (api_combined_data host q s)
      = Text500 "Error fetching combined data"%string).
Proof.
  intros Hf.
  assert (Ht : forall q0,
             RegExp host (default ""%string (search q0)) <> None ->
             fst (api_transactions host q0 s)
             = Text500 "Error fetching transactions"%string).
  { intros q0 Hr. unfold api_transactions.
    destruct (RegExp host (default ""%string (search q0))) as [r|];
      [|contradiction].
    destruct (monthWindow host (month q0)) as [startDate endDate].
    match goal with |- context [find ?t ?f ?sk ?lim] =>
      destruct (find_fault f sk lim s rest Hf) as [e He] end.
    eapply try_catch_rejected, bind_rejected, He. }
  split; [apply Ht|]. split; [|split; [|split]].
  - unfold api_statistics. destruct (monthWindow host (month q)).
    eapply try_catch_rejected, bind_rejected.
    apply (command_fault _ s rest Hf).
  - unfold api_bar_chart. destruct (monthWindow host (month q)).
    unfold priceRanges. cbn [List.map].
    match goal with |- context [countDocuments ?t ?f] =>
      destruct (countDocuments_fault f s rest Hf) as [e He] end.
    eapply try_catch_rejected, Promise_all_head_rejected, bind_rejected, He.
  - unfold api_pie_chart. destruct (monthWindow host (month q)).
    eapply try_catch_rejected, bind_rejected.
    apply (command_fault _ s rest Hf).
  - intros Hr. unfold api_combined_data, axios_get_then.
    rewrite (surjective_pairing (api_transactions host _ s)).
    rewrite Ht by exact Hr. reflexivity.
Qed.

End WithHost.

Lemma handlers_on_outage_witness :
  fst (api_statistics utc_host (monthQuery "2022-03")
         {| collection := collection elevenInMarch; faults := [true] |})
  = Text500 "Error fetching statistics"%string.
Proof.
  apply (handlers_on_outage utc_host (monthQuery "2022-03")
           {| collection := collection elevenInMarch; faults := [true] |} []
           eq_refl).
Defined.

End HandlerFacts.

(* ================================================================== *)
(** ** More on List Transactions *)
(* ================================================================== *)

Module PageFacts.
Import ESDate JSNumber Mongo MongoFacts Server.
Import TransactionFacts StatisticsFacts.

Lemma In_firstn {A} (n : nat) (l : list A) x : In x (firstn n l) -> In x l.
Proof.
  intros H. rewrite <- (firstn_skipn n l). apply List.in_or_app. left. exact H.
Qed.

Lemma In_skipn {A} (n : nat) (l : list A) x : In x (skipn n l) -> In x l.
Proof.
  intros H. rewrite <- (firstn_skipn n l). apply List.in_or_app. right. exact H.
Qed.

Lemma In_applyLimit {A} (n : Z) (l : list A) x :
  In x (applyLimit n l) -> In x l.
Proof.
  unfold applyLimit. destruct (n =? 0); [auto | apply In_firstn].
Qed.

Lemma length_applyLimit {A} (n : Z) (l : list A) :
  (length (applyLimit n l) <= length l)%nat
  /\ (n <> 0 -> Z.of_nat (length (applyLimit n l)) <= Z.abs n).
Proof.
  unfold applyLimit. destruct (Z.eqb_spec n 0); [split; [lia | contradiction]|].
  rewrite length_firstn. split; lia.
Qed.

Section WithHost.
Variable host : Host.

Lemma find_fulfilled (flt : Filter (regex host)) skip limit s l s' :
  find (regex_test host) flt skip limit s = (Fulfilled l, s') ->
  cast flt = true /\ 0 <= skip
  /\ l = applyLimit limit
           (skipn (Z.to_nat skip)
                  (List.filter (matches (regex_test host) flt) (collection s)))
  /\ collection s' = collection s.
Proof.
  unfold find. destruct (cast flt); [|discriminate].
  intros H. apply command_fulfilled in H as [H Hs].
  destruct (Z.ltb_spec skip 0); [discriminate|].
  injection H as <-. auto.
Qed.

(** X9.  Whatever List Transactions returns with status 200 is sound:
    the window is valid and the search compiles; every record returned is
    a record of the collection, sold inside the window, that matches the
    search by its title, its description or its price; the page is no
    longer than [total], nor than [|perPage|] when [perPage] is not 0; and
    [total] is at most the size of the collection. *)
Theorem api_transactions_sound q s txs total s' :
  api_transactions host q s = (Json200 (txs, total), s') ->
  exists r a b,
    RegExp host (default ""%string (search q)) = Some r
    /\ monthWindow host (month q) = (Some a, Some b)
    /\ (forall t, In t txs ->
          In t (collection s)
          /\ inWindow a b t = true
          /\ (regex_test host r (title t)
              || regex_test host r (description t)
              || JSNumber.eqb (price t)
                   (or_else (parseFloat (default ""%string (search q)))
                            (Fin (-1)))) = true)
    /\ (length txs <= total)%nat
    /\ (default 10 (perPage q) <> 0 ->
        Z.of_nat (length txs) <= Z.abs (default 10 (perPage q)))
    /\ (total <= length (collection s))%nat.
Proof.
  unfold api_transactions.
  destruct (RegExp host (default ""%string (search q))) as [r|];
    [|discriminate].
  destruct (monthWindow host (month q)) as [startDate endDate].
  unfold try_catch, mbind, Async_bind, mret, Async_ret.
  match goal with |- context [find ?t ?f ?sk ?lim s] =>
    destruct (find t f sk lim s) as [[found|e] s1] eqn:Ef end;
    [|discriminate].
  match goal with |- context [countDocuments ?t ?f s1] =>
    destruct (countDocuments t f s1) as [[n|e] s2] eqn:Ec end;
    [|discriminate].
  intros [= <- <- <-].
  apply find_fulfilled in Ef as (Hcast & Hskip & -> & Hs1).
  apply countDocuments_fulfilled in Ec as (_ & -> & _).
  apply transactionsFilter_cast in Hcast as (a & b & -> & ->).
  exists r, a, b. split; [reflexivity|]. split; [reflexivity|].
  rewrite Hs1.
  set (found := List.filter _ (collection s)).
  split; [|split; [|split]].
  - intros t Ht. apply In_applyLimit, In_skipn in Ht.
    apply List.filter_In in Ht as [Hin Hm].
    rewrite transactionsFilter_matches in Hm.
    apply andb_true_iff in Hm as [Hw Hs]. auto.
  - pose proof (proj1 (length_applyLimit (default 10 (perPage q))
                         (skipn (Z.to_nat ((default 1 (page q) - 1)
                                           * default 10 (perPage q))) found))).
    rewrite length_skipn in *. lia.
  - apply length_applyLimit.
  - apply List.filter_length_le.
Qed.

(** X10.  A page past the last match is an empty page, not an error: on a
    responding store, with a valid window and a search that compiles,
    [page >= 1] and [perPage >= 1] with [(page-1)*perPage >= total] give
    status 200, no record and the same [total]. *)
Theorem api_transactions_past_the_end q s r a b srch p n :
  healthy s ->
  default ""%string (search q) = srch ->
  default 1 (page q) = p ->
  default 10 (perPage q) = n ->
  RegExp host srch = Some r ->
  monthWindow host (month q) = (Some a, Some b) ->
  1 <= p -> 1 <= n ->
  let found := List.filter
      (matches (regex_test host)
         (transactionsFilter host (Some a) (Some b) r srch))
      (collection s) in
  Z.of_nat (length found) <= (p - 1) * n ->
  fst (api_transactions host q s) = Json200 ([], length found).
Proof.
  intros Hs Hsrch Hpage HperPage Hr Hw Hp Hn found Hpast.
  rewrite (api_transactions_healthy host q s r a b srch p n) by assumption.
  cbn [fst]. fold found. rewrite slice_of_page by assumption.
  rewrite skipn_all2; [destruct (Z.to_nat n); reflexivity|].
  rewrite <- Z2Nat.inj_mul by lia. lia.
Qed.

(** X11.  A request with nothing but the month (the request the Combined
    Report makes) returns the first ten records of the window, in the
    order of the collection, and the number of records of the window, on
    a responding store and a host whose empty regular expression matches
    every string. *)
Theorem api_transactions_month_only m s r0 a b :
  healthy s ->
  RegExp host "" = Some r0 ->
  (forall x, regex_test host r0 x = true) ->
  monthWindow host m = (Some a, Some b) ->
  fst (api_transactions host (monthQuery m) s)
  = Json200 (firstn 10 (List.filter (inWindow a b) (collection s)),
             length (List.filter (inWindow a b) (collection s))).
Proof.
  intros Hs Hr Hall Hw.
  rewrite (api_transactions_healthy host (monthQuery m) s r0 a b "" 1 10)
    by (assumption || reflexivity).
  cbn [fst].
  rewrite (List.filter_ext _ (inWindow a b)
             (fun t => empty_search_matches host r0 a b t Hall)).
  reflexivity.
Qed.

(** X12.  The search by price: on a responding store, with a valid window,
    a search that compiles and whose text reads as a number other than
    zero, [total] counts the records of the window whose title or
    description matches or whose price is that number; when the text does
    not read as a number and no price is negative, [total] counts the
    records of the window whose title or description matches. *)
Theorem api_transactions_search_total q s r a b srch p n :
  healthy s ->
  default ""%string (search q) = srch ->
  default 1 (page q) = p ->
  default 10 (perPage q) = n ->
  RegExp host srch = Some r ->
  monthWindow host (month q) = (Some a, Some b) ->
  0 <= (p - 1) * n ->
  (forall x, parseFloat srch = Fin x -> ~ (x == 0)%Q ->
     exists txs,
       fst (api_transactions host q s)
       = Json200 (txs,
           length (List.filter
                     (fun t => inWindow a b t
                               && (regex_test host r (title t)
                                   || regex_test host r (description t)
                                   || Qeq_bool (price t) x))
                     (collection s))))
  /\ (parseFloat srch = NaN ->
      (forall t, In t (collection s) -> (0 <= price t)%Q) ->
      exists txs,
        fst (api_transactions host q s)
        = Json200 (txs,
            length (List.filter
                      (fun t => inWindow a b t
                                && (regex_test host r (title t)
                                    || regex_test host r (description t)))
                      (collection s)))).
Proof.
  intros Hs Hsrch Hpage HperPage Hr Hw Hskip.
  rewrite (api_transactions_healthy host q s r a b srch p n) by assumption.
  cbn [fst]. destruct (Z.ltb_spec ((p - 1) * n) 0); [lia|]. split.
  - intros x Hx Hnz. eexists. f_equal. f_equal. f_equal.
    apply List.filter_ext. intros t. rewrite transactionsFilter_matches.
    rewrite Hx. unfold or_else, truthy.
    destruct (Qeq_bool x 0) eqn:E;
      [apply Qeq_bool_iff in E; contradiction|].
    reflexivity.
  - intros Hnan Hprices. eexists. f_equal. f_equal. f_equal.
    apply List.filter_ext_in. intros t Ht.
    rewrite transactionsFilter_matches.
    rewrite (price_branch_not_a_number srch t Hnan (Hprices t Ht)).
    rewrite orb_false_r. reflexivity.
Qed.

End WithHost.

Lemma api_transactions_sound_witness :
  exists r a b,
    RegExp utc_host "" = Some r
    /\ monthWindow utc_host "2022-03" = (Some a, Some b)
    /\ (forall t,
          In t (firstn 10 (collection elevenInMarch)) ->
          inWindow a b t = true).
Proof.
  destruct (api_transactions_sound utc_host (monthQuery "2022-03")
              elevenInMarch (firstn 10 (collection elevenInMarch)) 11%nat
              elevenInMarch eq_refl)
    as (r & a & b & Hr & Hw & Hall & _).
  exists r, a, b. split; [exact Hr|]. split; [exact Hw|].
  intros t Ht. apply (Hall t Ht).
Defined.

Lemma api_transactions_past_the_end_witness :
  fst (api_transactions utc_host
         {| month := "2022-03"; search := None;
            page := Some 3; perPage := Some 6 |}
         elevenInMarch)
  = Json200 ([], 11%nat).
Proof.
  apply (api_transactions_past_the_end utc_host
           {| month := "2022-03"; search := None;
              page := Some 3; perPage := Some 6 |}
           elevenInMarch [] 1646092800000 1648771200000 "" 3 6
           eq_refl eq_refl eq_refl eq_refl eq_refl eq_refl
           ltac:(lia) ltac:(lia)).
  vm_compute. discriminate.
Defined.

Lemma api_transactions_month_only_witness :
  fst (api_transactions utc_host (monthQuery "2022-03") elevenInMarch)
  = Json200 (firstn 10 (collection elevenInMarch), 11%nat).
Proof.
  apply (api_transactions_month_only utc_host "2022-03" elevenInMarch []
           1646092800000 1648771200000 eq_refl eq_refl
           CombinedFacts.literal_test_empty eq_refl).
Defined.

Lemma api_transactions_search_total_witness :
  exists txs,
    fst (api_transactions utc_host
           {| month := "2022-03"; search := Some "110"%string;
              page := None; perPage := None |}
           elevenInMarch)
    = Json200 (txs, 1%nat).
Proof.
  destruct (api_transactions_search_total utc_host
              {| month := "2022-03"; search := Some "110"%string;
                 page := None; perPage := None |}
              elevenInMarch (list_ascii_of_string "110")
              1646092800000 1648771200000 "110" 1 10
              eq_refl eq_refl eq_refl eq_refl eq_refl eq_refl ltac:(lia))
    as [Hnum _].
  destruct (Hnum 110%Q eq_refl) as [txs Htxs].
  - vm_compute. discriminate.
  - exists txs. exact Htxs.
Defined.

End PageFacts.

(* ================================================================== *)
(** ** More on the aggregates *)
(* ================================================================== *)

Module AggregateFacts.
Import ESDate JSNumber Mongo MongoFacts Server.
Import TransactionFacts StatisticsFacts HistogramFacts CategoryFacts.
Import CombinedFacts PageFacts Tally.

(** *** Statistics *)

Lemma sold_partition a b (docs : list ProductTransaction) :
  (length (List.filter (fun t => inWindow a b t && Bool.eqb (sold t) true) docs)
   + length (List.filter
               (fun t => inWindow a b t && Bool.eqb (sold t) false) docs)
   = length (List.filter (inWindow a b) docs))%nat.
Proof.
  rewrite (length_filter_split (inWindow a b) sold).
  f_equal; f_equal; apply List.filter_ext; intros t;
    destruct (sold t); reflexivity.
Qed.

(** X13.  Whenever Statistics answers with status 200, the window is
    valid and every record of the window is counted exactly once:
    [totalSoldItems + totalNotSoldItems] is the number of records of the
    window. *)
Theorem api_statistics_partition (host : Host) q s st s' :
  api_statistics host q s = (Json200 st, s') ->
  exists a b,
    monthWindow host (month q) = (Some a, Some b)
    /\ (totalSoldItems st + totalNotSoldItems st
        = length (List.filter (inWindow a b) (collection s)))%nat.
Proof.
  intros H. apply api_statistics_counts in H as (a & b & Hw & -> & ->).
  exists a, b. split; [exact Hw | apply sold_partition].
Qed.

Lemma api_statistics_partition_witness :
  exists a b,
    monthWindow utc_host "2022-03" = (Some a, Some b)
    /\ (5 + 6 = length (List.filter (inWindow a b)
                                    (collection elevenInMarch)))%nat.
Proof.
  apply (api_statistics_partition utc_host (monthQuery "2022-03")
           elevenInMarch
           {| totalSaleAmount := 300; totalSoldItems := 5;
              totalNotSoldItems := 6 |}
           elevenInMarch).
  vm_compute. reflexivity.
Defined.

(** *** Category distribution *)

Lemma list_sum_Permutation (l l' : list nat) :
  Permutation l l' -> list_sum l = list_sum l'.
Proof.
  induction 1; rewrite ?list_sum_cons in *; lia.
Qed.

Lemma counted_insert_fresh (m : gmap string nat) k n :
  m !! k = None -> counted (<[k:=n]> m) = (n + counted m)%nat.
Proof.
  intros H. unfold counted.
  rewrite (list_sum_Permutation _ _
             (Permutation_map snd (map_to_list_insert m k n H))).
  reflexivity.
Qed.

Lemma counted_step (m : gmap string nat) k :
  counted (<[k := S (default 0%nat (m !! k))]> m) = S (counted m).
Proof.
  destruct (m !! k) as [n|] eqn:E; cbn [default from_option].
  - rewrite <- (insert_delete_eq m).
    rewrite counted_insert_fresh by apply lookup_delete_eq.
    rewrite <- (insert_delete_id m k n E) at 2.
    rewrite counted_insert_fresh by apply lookup_delete_eq.
    unfold Datatypes.id. lia.
  - rewrite counted_insert_fresh by assumption. reflexivity.
Qed.

Lemma counted_groupCount (l : list ProductTransaction) :
  counted (groupCount l) = length l.
Proof.
  unfold groupCount.
  assert (H : forall m,
             counted (fold_left
               (fun m t =>
                  <[category t := S (default 0%nat (m !! category t))]> m) l m)
             = (counted m + length l)%nat).
  { induction l as [|t l IH]; intros m; cbn [fold_left length]; [lia|].
    rewrite IH, counted_step. lia. }
  rewrite H. unfold counted. rewrite map_to_list_empty. reflexivity.
Qed.

(** X15.  The counts of the Category Distribution add up to the number of
    records of the window (responding store, valid window): every record
    of the window is counted under exactly one category. *)
Theorem api_pie_chart_total (host : Host) q s a b :
  healthy s ->
  monthWindow host (month q) = (Some a, Some b) ->
  exists slices,
    fst (api_pie_chart host q s) = Json200 slices
    /\ list_sum (List.map slice_count slices)
       = length (List.filter (inWindow a b) (collection s)).
Proof.
  intros Hs Hw. rewrite (api_pie_chart_healthy host q s a b Hs Hw).
  eexists. split; [reflexivity|].
  rewrite List.map_map. cbn [slice_count].
  apply counted_groupCount.
Qed.

Lemma api_pie_chart_total_witness :
  exists slices,
    fst (api_pie_chart utc_host (monthQuery "2022-03") elevenInMarch)
    = Json200 slices
    /\ list_sum (List.map slice_count slices) = 11%nat.
Proof.
  apply (api_pie_chart_total utc_host (monthQuery "2022-03") elevenInMarch
           1646092800000 1648771200000 eq_refl eq_refl).
Defined.

End AggregateFacts.

(* ================================================================== *)
(** ** Fan-out and fan-in *)
(* ================================================================== *)

Module FanFacts.
Import ESDate JSNumber Mongo MongoFacts Server.
Import TransactionFacts StatisticsFacts HistogramFacts CategoryFacts.
Import CombinedFacts HandlerFacts PageFacts AggregateFacts.

Lemma countDocuments_sent {regex} (test : regex -> string -> bool)
    (flt : Filter regex) s :
  cast flt = true ->
  countDocuments test flt s
  = (if hd false (faults s) then Rejected MongoError
     else Fulfilled (length (List.filter (matches test flt) (collection s))),
     {| collection := collection s; faults := tl (faults s) |}).
Proof.
  intros Hc. unfold countDocuments, command. rewrite Hc.
  destruct s as [docs [|[] fs]]; reflexivity.
Qed.

(** The counts of a fan-out: all of them are sent; the answer is the list
    of counts when none fails and the rejection otherwise. *)
Lemma Promise_all_counts {regex B} (test : regex -> string -> bool)
    (flt : B -> Filter regex) {C} (g : B -> nat -> C) rs s :
  (forall r, cast (flt r) = true) ->
  Promise_all
    (List.map (fun r => n ← countDocuments test (flt r); mret (g r n)) rs) s
  = (if existsb (fun b => b) (firstn (length rs) (faults s))
     then Rejected MongoError
     else Fulfilled
            (List.map
               (fun r => g r (length (List.filter (matches test (flt r))
                                                  (collection s)))) rs),
     {| collection := collection s;
        faults := skipn (length rs) (faults s) |}).
Proof.
  intros Hc. revert s. induction rs as [|r rs IH]; intros s.
  - destruct s. reflexivity.
  - cbn [List.map Promise_all length]. unfold mbind at 1, Async_bind at 1.
    rewrite countDocuments_sent by apply Hc.
    destruct s as [docs fs]. cbn [faults collection].
    destruct fs as [|[] fs]; cbn [hd tl]; unfold mret, Async_ret;
      rewrite IH; cbn [faults collection firstn skipn existsb orb];
      try reflexivity.
    + destruct rs; reflexivity.
    + destruct (existsb (fun b => b) (firstn (length rs) fs)); reflexivity.
Qed.

Section WithHost.
Variable host : Host.

Lemma api_bar_chart_sent q s a b :
  monthWindow host (month q) = (Some a, Some b) ->
  api_bar_chart host q s
  = (if existsb (fun b => b) (firstn 10 (faults s))
     then Text500 "Error fetching bar chart data"%string
     else Json200
            (List.map
               (fun r =>
                  {| bar_range := range r;
                     bar_count :=
                       length (List.filter
                                 (fun t => inWindow a b t
                                           && inRange r (price t))
                                 (collection s)) |})
               priceRanges),
     {| collection := collection s; faults := skipn 10 (faults s) |}).
Proof.
  intros Hw. unfold api_bar_chart. rewrite Hw. unfold try_catch.
  rewrite (Promise_all_counts (regex_test host)
             (fun r => [ field (dateOfSale_range (Some a) (Some b));
                         field (price_range (min r) (max r)) ])
             (fun r n => {| bar_range := range r; bar_count := n |}))
    by reflexivity.
  change (length priceRanges) with 10%nat.
  destruct (existsb (fun b => b) (firstn 10 (faults s))); [reflexivity|].
  do 2 f_equal. apply List.map_ext. intros r. f_equal. f_equal.
  apply List.filter_ext. intros t. rewrite window_price_matches. reflexivity.
Qed.

(** X16.  The Price Histogram is all or nothing over its ten counts (valid
    window): all ten are sent whatever happens to the others; when one of
    them fails the answer is the error result, and otherwise it is the ten
    buckets, in the order of their declaration, each with its count. *)
Theorem api_bar_chart_all_or_nothing q s a b :
  monthWindow host (month q) = (Some a, Some b) ->
  faults (snd (api_bar_chart host q s)) = skipn 10 (faults s)
  /\ (existsb (fun b => b) (firstn 10 (faults s)) = true ->
      fst (api_bar_chart host q s)
      = Text500 "Error fetching bar chart data"%string)
  /\ (existsb (fun b => b) (firstn 10 (faults s)) = false ->
      exists bars,
        fst (api_bar_chart host q s) = Json200 bars
        /\ List.map bar_range bars = List.map range priceRanges
        /\ List.map bar_count bars
           = List.map
               (fun r => length (List.filter
                           (fun t => inWindow a b t && inRange r (price t))
                           (collection s)))
               priceRanges).
Proof.
  intros Hw. rewrite (api_bar_chart_sent q s a b Hw). cbn [fst snd faults].
  split; [reflexivity|]. split.
  - intros ->. reflexivity.
  - intros ->. eexists. split; [reflexivity|].
    rewrite !List.map_map. split; reflexivity.
Qed.

Lemma api_pie_chart_success q s a b slices s' :
  monthWindow host (month q) = (Some a, Some b) ->
  api_pie_chart host q s = (Json200 slices, s') ->
  slices
  = List.map (fun kv => {| slice_category := fst kv; slice_count := snd kv |})
      (map_to_list (groupCount (List.filter (inWindow a b) (collection s)))).
Proof.
  intros Hw. unfold api_pie_chart. rewrite Hw.
  unfold try_catch, mbind, Async_bind, mret, Async_ret,
    aggregate_count_by_category.
  match goal with |- context [command ?run s] =>
    destruct (command run s) as [[kvs|e] s1] eqn:E end; [|discriminate].
  apply command_fulfilled in E as [[= <-] _].
  intros [= <- _]. rewrite filter_window. reflexivity.
Qed.

Lemma api_transactions_month_success m s r0 a b txs total s' :
  RegExp host "" = Some r0 ->
  (forall x, regex_test host r0 x = true) ->
  monthWindow host m = (Some a, Some b) ->
  api_transactions host (monthQuery m) s = (Json200 (txs, total), s') ->
  txs = firstn 10 (List.filter (inWindow a b) (collection s))
  /\ total = length (List.filter (inWindow a b) (collection s)).
Proof.
  intros Hr Hall Hw. unfold api_transactions.
  cbn [monthQuery search page perPage month default from_option].
  rewrite Hr, Hw. unfold try_catch, mbind, Async_bind, mret, Async_ret.
  match goal with |- context [find ?t ?f ?sk ?lim s] =>
    destruct (find t f sk lim s) as [[found|e] s1] eqn:Ef end;
    [|discriminate].
  match goal with |- context [countDocuments ?t ?f s1] =>
    destruct (countDocuments t f s1) as [[n|e] s2] eqn:Ec end;
    [|discriminate].
  intros [= <- <- _].
  apply find_fulfilled in Ef as (_ & _ & -> & Hs1).
  apply countDocuments_fulfilled in Ec as (_ & -> & _).
  rewrite Hs1.
  rewrite (List.filter_ext _ (inWindow a b)
             (fun t => empty_search_matches host r0 a b t Hall)).
  split; reflexivity.
Qed.

(** X17.  The four parts of a Combined Report that succeeds describe the
    same records (on a host whose empty regular expression matches every
    string): the window is valid; [transactions] holds the first ten
    records of the window and their number; the two counts of
    [statistics], and the counts of [pieChart], add up to that number;
    [barChart] holds the ten buckets in their order, and its counts
    together with the records of the window priced in a boundary gap add
    up to that number too. *)
Theorem api_combined_data_coherent q s c r0 :
  RegExp host "" = Some r0 ->
  (forall x, regex_test host r0 x = true) ->
  fst (api_combined_data host q s) = Json200 c ->
  exists a b,
    monthWindow host (month q) = (Some a, Some b)
    /\ transactions c
       = (firstn 10 (List.filter (inWindow a b) (collection s)),
          length (List.filter (inWindow a b) (collection s)))
    /\ (totalSoldItems (statistics c) + totalNotSoldItems (statistics c)
        = length (List.filter (inWindow a b) (collection s)))%nat
    /\ list_sum (List.map slice_count (pieChart c))
       = length (List.filter (inWindow a b) (collection s))
    /\ List.map bar_range (barChart c) = List.map range priceRanges
    /\ (list_sum (List.map bar_count (barChart c))
        + length (List.filter
                    (fun t => inWindow a b t && boundaryGap (price t))
                    (collection s))
        = length (List.filter (inWindow a b) (collection s)))%nat.
Proof.
  intros Hr Hall Hc.
  apply api_combined_data_success in Hc
    as (s1 & s2 & s3 & s4 & H1 & H2 & H3 & H4).
  assert (Hs1 : collection s1 = collection s).
  { rewrite <- (api_transactions_collection host (monthQuery (month q)) s), H1.
    reflexivity. }
  assert (Hs2 : collection s2 = collection s).
  { rewrite <- Hs1,
      <- (api_statistics_collection host (monthQuery (month q)) s1), H2.
    reflexivity. }
  assert (Hs3 : collection s3 = collection s).
  { rewrite <- Hs2,
      <- (api_bar_chart_collection host (monthQuery (month q)) s2), H3.
    reflexivity. }
  destruct (api_statistics_counts host _ _ _ _ H2)
    as (a & b & Hw & Hsold & Hunsold).
  cbn [monthQuery month] in Hw.
  exists a, b. split; [exact Hw|].
  destruct (transactions c) as [txs total] eqn:Et.
  apply (api_transactions_month_success (month q) s r0 a b txs total s1
           Hr Hall Hw) in H1 as [-> ->].
  split; [reflexivity|].
  split; [rewrite Hsold, Hunsold, Hs1; apply sold_partition|].
  apply (api_pie_chart_success (monthQuery (month q)) s3 a b _ s4 Hw) in H4.
  split.
  { rewrite H4, Hs3. rewrite List.map_map. cbn [slice_count].
    apply counted_groupCount. }
  rewrite (api_bar_chart_sent (monthQuery (month q)) s2 a b Hw) in H3.
  destruct (existsb (fun b => b) (firstn 10 (faults s2))); [discriminate|].
  apply (f_equal (fun rs => barsOf (fst rs))) in H3.
  cbn [fst barsOf] in H3. rewrite <- H3, Hs2, !List.map_map.
  cbn [bar_range bar_count]. split; [reflexivity|].
  apply buckets_cover.
Qed.

End WithHost.

Lemma api_bar_chart_all_or_nothing_witness :
  fst (api_bar_chart utc_host (monthQuery "2022-03")
         {| collection := collection elevenInMarch;
            faults := [false; false; false; false; false; false; true] |})
  = Text500 "Error fetching bar chart data"%string.
Proof.
  apply (api_bar_chart_all_or_nothing utc_host (monthQuery "2022-03")
           {| collection := collection elevenInMarch;
              faults := [false; false; false; false; false; false; true] |}
           1646092800000 1648771200000 eq_refl).
  reflexivity.
Defined.

Lemma api_combined_data_coherent_witness :
  exists c a b,
    fst (api_combined_data utc_host (monthQuery "2022-03") elevenInMarch)
    = Json200 c
    /\ monthWindow utc_host "2022-03" = (Some a, Some b)
    /\ list_sum (List.map slice_count (pieChart c))
       = length (List.filter (inWindow a b) (collection elevenInMarch)).
Proof.
  destruct (fst (api_combined_data utc_host (monthQuery "2022-03")
                   elevenInMarch)) as [c| |] eqn:E;
    [|vm_compute in E; discriminate E..].
  destruct (api_combined_data_coherent utc_host (monthQuery "2022-03")
              elevenInMarch c [] eq_refl literal_test_empty E)
    as (a & b & Hw & _ & _ & Hpie & _).
  exists c, a, b. split; [reflexivity|]. split; [exact Hw | exact Hpie].
Defined.

End FanFacts.

(* ================================================================== *)
(** ** Edges of the aggregates *)
(* ================================================================== *)

Module EdgeFacts.
Import ESDate JSNumber Mongo MongoFacts Server.
Import HistogramFacts InvalidMonthFacts.

(** X18.  With a month that does not parse, the Category Distribution
    never returns a slice: its aggregation is sent without casting, the
    window between the two invalid dates is empty, and the answer is the
    empty list (status 200) whenever the command goes through. *)
Theorem api_pie_chart_invalid_month (host : Host) q s :
  parse (parse_other host) (month q ++ "-01") = None ->
  (healthy s -> fst (api_pie_chart host q s) = Json200 [])
  /\ (forall slices,
        fst (api_pie_chart host q s) = Json200 slices -> slices = []).
Proof.
  intros H. split.
  - intros Hs. rewrite (api_pie_chart_unparsable_month host q s Hs H).
    reflexivity.
  - intros slices. unfold api_pie_chart.
    rewrite (monthWindow_invalid host (month q) H).
    unfold try_catch, mbind, Async_bind, mret, Async_ret,
      aggregate_count_by_category.
    match goal with |- context [command ?run s] =>
      destruct (command run s) as [[kvs|e] s1] eqn:E end; [|discriminate].
    apply command_fulfilled in E as [[= <-] _].
    cbn [fst]. intros [= <-].
    replace (List.filter _ (collection s)) with (@nil ProductTransaction);
      [reflexivity|].
    symmetry. induction (collection s) as [|t l IH]; [reflexivity|].
    cbn [List.filter]. rewrite IH. unfold matches. cbn.
    destruct (Z.leb_spec 0 (dateOfSale t)), (Z.ltb_spec (dateOfSale t) 0);
      try reflexivity; lia.
Qed.

Lemma api_pie_chart_invalid_month_witness :
  fst (api_pie_chart utc_host (monthQuery "2022-13") elevenInMarch)
  = Json200 [].
Proof.
  apply (api_pie_chart_invalid_month utc_host (monthQuery "2022-13")
           elevenInMarch eq_refl).
  reflexivity.
Defined.

Lemma Qle_bool_whole (c z : Z) : Qle_bool (c # 1) (z # 1) = (c <=? z).
Proof. unfold Qle_bool. cbn. rewrite !Z.mul_1_r. reflexivity. Qed.

(** X19.  A price that is a whole number, zero or more, lies in exactly
    one bucket of the histogram, unless it is one of 100, 200, ..., 900,
    which lie in none. *)
Theorem buckets_of_whole_price (z : Z) :
  0 <= z ->
  length (List.filter (fun r => inRange r (inject_Z z)) priceRanges)
  = if existsb (Z.eqb z) [100; 200; 300; 400; 500; 600; 700; 800; 900]
    then 0%nat else 1%nat.
Proof.
  intros Hz. rewrite length_filter_indicators.
  unfold priceRanges, inRange, JSNumber.geb, JSNumber.ltb, inject_Z.
  cbn [List.map min max existsb].
  rewrite !Qle_bool_whole.
  repeat match goal with
  | |- context [?c <=? z] =>
      destruct (Z.leb_spec c z); try lia
  end;
  repeat match goal with
  | |- context [z =? ?c] => destruct (Z.eqb_spec z c); try lia
  end; reflexivity.
Qed.

Lemma buckets_of_whole_price_witness :
  length (List.filter (fun r => inRange r (inject_Z 300)) priceRanges)
  = 0%nat.
Proof. apply (buckets_of_whole_price 300). lia. Defined.

End EdgeFacts.
